(** * Document ingestion and retrieval-augmented query workflow

    A shallow embedding of the request handlers of [app/main.py] and of
    [app/utils.py]: [upload_document], [list_documents], [delete_document],
    [ask], [chunk_text] and [extract_text_from_pdf].

    The handlers are Python coroutines that mutate three stores (the
    relational table [documents], the upload directory and the vector table)
    and may raise.  They are modelled in a state-and-exception monad over a
    [World]; the external collaborators (PDF parser, text splitter, vector
    store, generation pipeline) are the fields of an [Env].

    Conventions of the model:
    - one request runs at a time;
    - a call to a collaborator either returns or raises, and a call that
      raises has changed no store;
    - [open], [write] and [os.remove] on the upload directory do not raise;
    - the [World] records the mutations of a handler in order ([effects]). *)

From Stdlib Require Import Ascii String.
From stdpp Require Import base option list gmap strings fin_maps.

Local Open Scope string_scope.
Local Open Scope list_scope.
Local Open Scope nat_scope.

(** ** Python values and truthiness *)

(** The values that reach a truth test in the handlers are [None] and [str]. *)
Inductive pyval : Type :=
  | PyNone
  | PyStr (s : string).

Global Instance pyval_eq_dec : EqDecision pyval.
Proof. solve_decision. Defined.

(** [bool(v)]: [None] and the empty string are falsy. *)
Definition truthy (v : pyval) : bool :=
  match v with
  | PyNone => false
  | PyStr s => negb (String.eqb s "")
  end.

(** [a or b] *)
Definition py_or (a b : pyval) : pyval := if truthy a then a else b.

(** [d.get(k)] on a dict with [str] keys: [None] when the key is absent. *)
Definition dict_get (d : gmap string pyval) (k : string) : pyval :=
  default PyNone (d !! k).

(** ** Data model *)

Definition bytes : Type := list Byte.byte.

(** [app/models.py], class [Document] (imported as [DBDocument]). *)
Record DBDocument : Type := mkDBDocument {
  doc_id : nat;
  doc_filename : string;
  doc_filepath : string;
  doc_uploaded_at : nat
}.

Global Instance DBDocument_eq_dec : EqDecision DBDocument.
Proof. solve_decision. Defined.

(** [langchain_core.documents.Document]: text and a metadata dict, which may
    be [None]. *)
Record Document : Type := mkDocument {
  page_content : string;
  metadata : option (gmap string string)
}.

(** [fastapi.UploadFile], already received. *)
Record UploadFile : Type := mkUploadFile {
  file_filename : string;
  file_contents : bytes
}.

(** [app/schemas.py] *)
Record DocumentUploadResponse : Type := mkDocumentUploadResponse {
  resp_id : nat;
  resp_filename : string
}.

Record AskRequest : Type := mkAskRequest { question : string }.

Record AskResponse : Type := mkAskResponse {
  answer : pyval;
  sources : list string
}.

(** ** The stores *)

(** The mutations a handler performs, in the order it performs them. *)
Inductive Effect : Type :=
  | FileWritten (path : string)
  | FileRemoved (path : string)
  | RowInserted (id : nat)
  | RowDeleted (id : nat)
  | ChunksIndexed (filename : string) (n : nat).

Global Instance Effect_eq_dec : EqDecision Effect.
Proof. solve_decision. Defined.

Record World : Type := mkWorld {
  db_rows : list DBDocument;       (* committed rows of table documents *)
  db_next_id : nat;                (* the primary-key sequence *)
  fs : gmap string bytes;          (* regular files, by path *)
  vs_rows : list Document;         (* rows of table langchain_documents *)
  effects : list Effect
}.

Definition set_db_rows (r : list DBDocument) (w : World) : World :=
  mkWorld r (db_next_id w) (fs w) (vs_rows w) (effects w).
Definition set_db_next_id (n : nat) (w : World) : World :=
  mkWorld (db_rows w) n (fs w) (vs_rows w) (effects w).
Definition set_fs (f : gmap string bytes) (w : World) : World :=
  mkWorld (db_rows w) (db_next_id w) f (vs_rows w) (effects w).
Definition set_vs_rows (v : list Document) (w : World) : World :=
  mkWorld (db_rows w) (db_next_id w) (fs w) v (effects w).
Definition log_effect (e : Effect) (w : World) : World :=
  mkWorld (db_rows w) (db_next_id w) (fs w) (vs_rows w) (effects w ++ [e])%list.

(** ** Exceptions and the handler monad *)

Inductive exn : Type :=
  | HTTPException (status_code : nat) (detail : string)
  | Exception (cls : string).      (* any other exception, by class name *)

Inductive result (A : Type) : Type :=
  | Ok (a : A)
  | Raise (e : exn).
Arguments Ok {A} a.
Arguments Raise {A} e.

Definition M (A : Type) : Type := World → result A * World.

Global Instance M_ret : MRet M := λ A a w, (Ok a, w).
Global Instance M_bind : MBind M := λ A B f m w,
  match m w with
  | (Ok a, w') => f a w'
  | (Raise e, w') => (Raise e, w')
  end.

Definition raise {A} (e : exn) : M A := λ w, (Raise e, w).
Definition gets {A} (f : World → A) : M A := λ w, (Ok (f w), w).
Definition modify (f : World → World) : M unit := λ w, (Ok (), f w).

(** [try: body / except ...: handler e] *)
Definition try_except {A} (body : M A) (handler : exn → M A) : M A := λ w,
  match body w with
  | (Ok a, w') => (Ok a, w')
  | (Raise e, w') => handler e w'
  end.

(** An external call that either returns or raises [cls]. *)
Definition external {A} (cls : string) (r : option A) : M A :=
  match r with
  | Some a => mret a
  | None => raise (Exception cls)
  end.

Definition raises_if (b : bool) (cls : string) : M unit :=
  if b then raise (Exception cls) else mret ().

(** ** External collaborators *)

Record Env : Type := mkEnv {
  (* PyPDF2: [PdfReader(path).pages], each page's [extract_text()];
     [None] when the reader raises *)
  PdfReader : bytes → option (list pyval);
  (* [RecursiveCharacterTextSplitter(chunk_size, chunk_overlap).split_text] *)
  split_text : nat → nat → string → option (list string);
  (* database session *)
  db_now : nat;
  commit_raises : bool;
  refresh_raises : bool;
  (* vector store *)
  get_vectorstore_raises : bool;
  has_aadd_documents : bool;
  aadd_documents_raises : bool;
  asimilarity_search : list Document → string → option (list Document);
  (* RetrievalQA chain *)
  ainvoke : list Document → string → option (gmap string pyval)
}.

(** ** [app/utils.py] *)

Definition os_path_exists (path : string) : M bool :=
  gets (λ w, bool_decide (is_Some (fs w !! path))).

(** [text += page_text], guarded by [if page_text:] *)
Definition add_page_text (text : string) (page_text : pyval) : string :=
  if truthy page_text then
    match page_text with
    | PyStr s => text +:+ s
    | PyNone => text
    end
  else text.

Definition extract_text_from_pdf (E : Env) (pdf_path : string) : M string :=
  found ← gets (λ w, fs w !! pdf_path);
  match found with
  | None => raise (Exception "FileNotFoundError")
  | Some raw =>
      try_except
        (pages ← external "PdfReadError" (PdfReader E raw);
         mret (foldl add_page_text "" pages))
        (λ e, raise (Exception "Exception"))
  end.

(** ** [app/main.py] *)

Definition UPLOAD_DIR : string := "./uploads".

(** [os.path.join(a, b)] on POSIX, two components. *)
Definition path_join (a b : string) : string :=
  if String.prefix "/" b then b
  else if bool_decide (a = "") || String.eqb (String.substring (String.length a - 1) 1 a) "/"
       then a +:+ b
       else a +:+ "/" +:+ b.

Definition chunk_text (E : Env) (text : string) : M (list string) :=
  external "ValueError" (split_text E 500 50 text).

(** [result.scalar_one_or_none()] of [select(DBDocument).where(p)] *)
Definition db_select_one (p : DBDocument → bool) : M (option DBDocument) :=
  rows ← gets (λ w, filter (λ d, p d = true) (db_rows w));
  match rows with
  | [] => mret None
  | [d] => mret (Some d)
  | _ => raise (Exception "MultipleResultsFound")
  end.

(** [db.add(doc); await db.commit()]: the row receives its id from the
    sequence and its timestamp from the server default; the unique index on
    [filename] rejects a second row of the same name. *)
Definition db_add_commit (E : Env) (filename filepath : string) : M DBDocument :=
  raises_if (commit_raises E) "DBAPIError";;
  taken ← gets (λ w, bool_decide (filename ∈ doc_filename <$> db_rows w));
  if (taken : bool) then raise (Exception "IntegrityError")
  else
    id ← gets db_next_id;
    let doc := mkDBDocument id filename filepath (db_now E) in
    modify (λ w, log_effect (RowInserted id)
                   (set_db_next_id (S id) (set_db_rows (db_rows w ++ [doc])%list w)));;
    mret doc.

Definition db_refresh (E : Env) (doc : DBDocument) : M unit :=
  raises_if (refresh_raises E) "DBAPIError".

(** [await db.delete(doc); await db.commit()] *)
Definition db_delete_commit (E : Env) (doc : DBDocument) : M unit :=
  raises_if (commit_raises E) "DBAPIError";;
  modify (λ w, log_effect (RowDeleted (doc_id doc))
                 (set_db_rows (filter (λ d, doc_id d ≠ doc_id doc) (db_rows w)) w)).

Definition write_file (path : string) (contents : bytes) : M unit :=
  modify (λ w, log_effect (FileWritten path) (set_fs (<[path := contents]> (fs w)) w)).

Definition os_remove (path : string) : M unit :=
  modify (λ w, log_effect (FileRemoved path) (set_fs (delete path (fs w)) w)).

Definition get_vectorstore (E : Env) : M unit :=
  raises_if (get_vectorstore_raises E) "VectorStoreError".

Definition aadd_documents (E : Env) (filename : string) (docs : list Document) : M unit :=
  raises_if (aadd_documents_raises E) "VectorStoreError";;
  modify (λ w, log_effect (ChunksIndexed filename (length docs))
                 (set_vs_rows (vs_rows w ++ docs)%list w)).

Definition make_doc (filename chunk : string) : Document :=
  mkDocument chunk (Some {[ "filename" := filename ]}).

Definition upload_document (E : Env) (file : UploadFile) : M DocumentUploadResponse :=
  let filename := file_filename file in
  let file_path := path_join UPLOAD_DIR filename in
  existing_doc ← db_select_one (λ d, bool_decide (doc_filename d = filename));
  match existing_doc with
  | Some _ => raise (HTTPException 400 "Document already exists")
  | None =>
      try_except
        (let contents := file_contents file in
         match contents with
         | [] => raise (HTTPException 400 "Uploaded file is empty")
         | _ =>
             write_file file_path contents;;
             text ← extract_text_from_pdf E file_path;
             chunks ← chunk_text E text;
             let docs := make_doc filename <$> chunks in
             doc ← db_add_commit E filename file_path;
             db_refresh E doc;;
             get_vectorstore E;;
             (if has_aadd_documents E then aadd_documents E filename docs
              else raise (Exception "RuntimeError"));;
             mret (mkDocumentUploadResponse (doc_id doc) filename)
         end)
        (λ e,
           match e with
           | HTTPException _ _ => raise e
           | Exception _ =>
               present ← os_path_exists file_path;
               (if (present : bool) then os_remove file_path else mret ());;
               raise (HTTPException 500 "Internal Server Error")
           end)
  end.

Definition list_documents : M (list (nat * string)) :=
  gets (λ w, (λ d, (doc_id d, doc_filename d)) <$> db_rows w).

Definition delete_document (E : Env) (id : nat) : M string :=
  doc ← db_select_one (λ d, bool_decide (doc_id d = id));
  match doc with
  | None => raise (HTTPException 404 "Document not found")
  | Some doc =>
      try_except
        (present ← os_path_exists (doc_filepath doc);
         (if (present : bool) then os_remove (doc_filepath doc) else mret ());;
         db_delete_commit E doc;;
         mret "Document deleted")
        (λ e, raise (HTTPException 500 "Internal Server Error"))
  end.

(** [result.get("result") or result.get("answer") or "No relevant answer found."] *)
Definition no_answer : string := "No relevant answer found.".

Definition extract_answer (res : gmap string pyval) : pyval :=
  py_or (py_or (dict_get res "result") (dict_get res "answer")) (PyStr no_answer).

(** One iteration of the [for doc in docs] loop: what is appended. *)
Definition source_of (doc : Document) : string :=
  match metadata doc with
  | None => ""
  | Some md =>
      if bool_decide (md = ∅) then ""
      else match md !! "filename" with
           | None => ""
           | Some f => f
           end
  end.

Definition collect_sources (docs : list Document) : list string :=
  foldl (λ (srcs : list string) doc, (srcs ++ [source_of doc])%list) [] docs.

Definition ask (E : Env) (req : AskRequest) : M AskResponse :=
  try_except
    (get_vectorstore E;;
     index ← gets vs_rows;
     res ← external "ChainError" (ainvoke E index (question req));
     let ans := extract_answer res in
     docs ← external "VectorStoreError" (asimilarity_search E index (question req));
     let srcs := collect_sources docs in
     mret (mkAskResponse ans srcs))
    (λ e, raise (HTTPException 500 "Failed to process your query.")).

(** ** The Chunker *)

(** Modelled from the spec: the fixed-size overlapping segments of the
    Chunker.  [windows fuel size step l] are the segments of [l] of length
    [size] that start every [step] positions, the last one ending where [l]
    ends; [length l] is enough fuel when [step] is positive. *)
Fixpoint windows {A} (fuel size step : nat) (l : list A) : list (list A) :=
  match fuel with
  | 0 => []
  | S fuel' =>
      match l with
      | [] => []
      | _ :: _ =>
          if decide (length l ≤ size) then [l]
          else take size l :: windows fuel' size step (drop step l)
      end
  end.

(** Modelled from the spec: [RecursiveCharacterTextSplitter.split_text] of
    the package langchain_text_splitters, which [chunk_text] calls and which
    is not part of the sources.  The spec describes the Chunker as splitting
    plain text into overlapping fixed-size segments, with a target segment
    length and a fixed overlap between consecutive segments: a window of
    [chunk_size] characters that advances by [chunk_size - chunk_overlap]. *)
Definition spec_split_text (chunk_size chunk_overlap : nat) (text : string) : list string :=
  let cs := list_ascii_of_string text in
  string_of_list_ascii <$> windows (length cs) chunk_size (chunk_size - chunk_overlap) cs.

(** The last [n] characters and the first [n] characters of a segment. *)
Definition str_suffix (n : nat) (s : string) : string :=
  String.substring (String.length s - n) n s.
Definition str_prefix (n : nat) (s : string) : string :=
  String.substring 0 n s.

(** ⌈(L - 50) / 450⌉, over the integers. *)
Definition expected_segments (L : nat) : Z :=
  (- ((- (Z.of_nat L - 50)) / 450))%Z.

(** ** Invariants of the table [documents] *)

(** The unique index on [filename] and the primary key ([app/models.py]). *)
Definition unique_filenames (w : World) : Prop :=
  NoDup (doc_filename <$> db_rows w).
Definition unique_ids (w : World) : Prop :=
  NoDup (doc_id <$> db_rows w).
Definition db_wf (w : World) : Prop :=
  unique_filenames w ∧ unique_ids w ∧
  Forall (λ d, doc_id d < db_next_id w) (db_rows w).

Definition filenames (w : World) : list string := doc_filename <$> db_rows w.
Definition ids (w : World) : list nat := doc_id <$> db_rows w.

(** The source attribution as the spec words it: the filename in the chunk's
    metadata, or the empty string when the metadata or the key is absent. *)
Definition filename_or_empty (doc : Document) : string :=
  default "" (metadata doc ≫= (.!! "filename")).

(** The answer as the spec words it: the primary field if present, otherwise
    the alternate field if present, otherwise the placeholder. *)
Definition answer_by_presence (res : gmap string pyval) : pyval :=
  match res !! "result" with
  | Some v => v
  | None =>
      match res !! "answer" with
      | Some v => v
      | None => PyStr no_answer
      end
  end.

(** The first of the two fields that is present with a non-empty value. *)
Definition answer_by_truth (res : gmap string pyval) : pyval :=
  match res !! "result" with
  | Some (PyStr (String c s)) => PyStr (String c s)
  | _ =>
      match res !! "answer" with
      | Some (PyStr (String c s)) => PyStr (String c s)
      | _ => PyStr no_answer
      end
  end.

(** ** Stages of an upload *)

Definition upload_path (file : UploadFile) : string :=
  path_join UPLOAD_DIR (file_filename file).

(** The world after the file is written, after the record is committed,
    after the chunks are indexed; and the outcome of the [except Exception]
    clause, which removes the file. *)
Definition written (file : UploadFile) (w : World) : World :=
  (write_file (upload_path file) (file_contents file) w).2.
Definition committed (E : Env) (file : UploadFile) (w : World) : World :=
  log_effect (RowInserted (db_next_id w))
    (set_db_next_id (S (db_next_id w))
       (set_db_rows
          (db_rows w ++ [mkDBDocument (db_next_id w) (file_filename file)
                           (upload_path file) (db_now E)]) w)).
Definition indexed (file : UploadFile) (chunks : list string) (w : World) : World :=
  log_effect (ChunksIndexed (file_filename file) (length chunks))
    (set_vs_rows (vs_rows w ++ (make_doc (file_filename file) <$> chunks)) w).
Definition upload_failed (file : UploadFile) (w : World) : result DocumentUploadResponse * World :=
  (Raise (HTTPException 500 "Internal Server Error"),
   (os_remove (upload_path file) w).2).

(** ** Example inputs *)

(** Environments for examples: the PDF is readable or not, the splitter is
    the Chunker of the spec, and each call of the session and of the vector
    store raises or not. *)
Definition example_env (readable commit_err refresh_err vs_err has_add add_err : bool) : Env := {|
  PdfReader := λ raw,
    if readable then Some [PyStr "Hello "; PyNone; PyStr ""; PyStr "world"] else None;
  split_text := λ size overlap text, Some (spec_split_text size overlap text);
  db_now := 0;
  commit_raises := commit_err;
  refresh_raises := refresh_err;
  get_vectorstore_raises := vs_err;
  has_aadd_documents := has_add;
  aadd_documents_raises := add_err;
  asimilarity_search := λ index q, Some (take 4 index);
  ainvoke := λ index q, Some {[ "query" := PyStr q; "result" := PyStr "42" ]}
|}.

(** Every collaborator answers. *)
Definition nominal_env : Env := example_env true false false false true false.

Definition empty_world : World := mkWorld [] 1 ∅ [] [].

(** [E] with another generation pipeline. *)
Definition with_ainvoke (f : list Document → string → option (gmap string pyval)) (E : Env) : Env := {|
  PdfReader := PdfReader E;
  split_text := split_text E;
  db_now := db_now E;
  commit_raises := commit_raises E;
  refresh_raises := refresh_raises E;
  get_vectorstore_raises := get_vectorstore_raises E;
  has_aadd_documents := has_aadd_documents E;
  aadd_documents_raises := aadd_documents_raises E;
  asimilarity_search := asimilarity_search E;
  ainvoke := f
|}.

(** A pipeline whose result binds the primary key to the empty string. *)
Definition empty_result : gmap string pyval :=
  {[ "query" := PyStr "q"; "result" := PyStr "" ]}.
Definition empty_result_env : Env :=
  with_ainvoke (λ _ _, Some empty_result) nominal_env.

Definition doc1 : UploadFile := mkUploadFile "doc1.pdf" [Byte.x25; Byte.x50; Byte.x44; Byte.x46].
Definition empty_upload : UploadFile := mkUploadFile "empty.pdf" [].
Definition empty_doc1 : UploadFile := mkUploadFile "doc1.pdf" [].

(** A store that already holds [doc1.pdf]. *)
Definition world_with_doc1 : World :=
  (upload_document nominal_env doc1 empty_world).2.

(** A text of 960 characters. *)
Definition sample_text : string :=
  string_of_list_ascii (replicate 960 "a"%char).

(** ** [app/auth.py] *)

(** [fastapi.security.HTTPAuthorizationCredentials] *)
Record HTTPAuthorizationCredentials : Type := mkCredentials {
  scheme : string;
  credentials : string
}.

(** A request, as far as the authentication reads it: what
    [HTTPBearer.__call__(request)] returns or raises for it. *)
Record Request : Type := mkRequest {
  http_bearer : result (option HTTPAuthorizationCredentials)
}.

(** [str.lower()] on ASCII text. *)
Definition ascii_lower (c : ascii) : ascii :=
  let n := nat_of_ascii c in
  if (65 <=? n) && (n <=? 90) then ascii_of_nat (n + 32) else c.

Fixpoint str_lower (s : string) : string :=
  match s with
  | EmptyString => EmptyString
  | String c s' => String (ascii_lower c) (str_lower s')
  end.

(** [BearerTokenAuth.__call__]; [SECRET_TOKEN] is [os.getenv("SECRET_TOKEN")],
    a [str] or [None]. *)
Definition BearerTokenAuth_call (SECRET_TOKEN : pyval) (request : Request) : M string :=
  creds ← (λ w, (http_bearer request, w));
  match creds with
  | None => raise (HTTPException 401 "Authorization header missing")
  | Some c =>
      if negb (String.eqb (str_lower (scheme c)) "bearer")
      then raise (HTTPException 403 "Invalid authentication scheme")
      else if negb (bool_decide (PyStr (credentials c) = SECRET_TOKEN))
      then raise (HTTPException 401 "Invalid or missing token")
      else mret (credentials c)
  end.

(** ** The routes of [app/main.py] *)

(** Modelled from the spec: the resolution of the dependency of an endpoint
    declared with [token: str = Security(auth_scheme)], which belongs to
    FastAPI and is not part of the sources.  The spec has every endpoint
    require the bearer token and a request without a valid one rejected
    before any handler logic executes: the dependency is called first and
    the endpoint receives its value. *)
Definition secured {A} (SECRET_TOKEN : pyval) (request : Request)
    (endpoint : string → M A) : M A :=
  token ← BearerTokenAuth_call SECRET_TOKEN request;
  endpoint token.

Definition secure_route (token : string) : M string :=
  mret "Access granted".

Definition GET_secure_endpoint (SECRET_TOKEN : pyval) (request : Request) : M string :=
  secured SECRET_TOKEN request secure_route.
Definition POST_upload (E : Env) (SECRET_TOKEN : pyval) (request : Request)
    (file : UploadFile) : M DocumentUploadResponse :=
  secured SECRET_TOKEN request (λ token, upload_document E file).
Definition GET_documents (SECRET_TOKEN : pyval) (request : Request) : M (list (nat * string)) :=
  secured SECRET_TOKEN request (λ token, list_documents).
Definition DELETE_documents (E : Env) (SECRET_TOKEN : pyval) (request : Request)
    (doc_id : nat) : M string :=
  secured SECRET_TOKEN request (λ token, delete_document E doc_id).
Definition POST_ask (E : Env) (SECRET_TOKEN : pyval) (request : Request)
    (req : AskRequest) : M AskResponse :=
  secured SECRET_TOKEN request (λ token, ask E req).

(** ** Settings read at import: [app/db.py], [app/vectorstore.py], [app/auth.py] *)

(** [os.getenv(k)] *)
Definition os_getenv (environ : gmap string string) (k : string) : pyval :=
  match environ !! k with
  | Some v => PyStr v
  | None => PyNone
  end.

Record Settings : Type := mkSettings {
  DATABASE_URL : pyval;
  OPENAI_API_KEY : pyval;
  SECRET_TOKEN : pyval
}.

Inductive ImportFailure : Type :=
  | RuntimeError (msg : string)
  | EngineError.                   (* [create_async_engine] refused the URL *)

(** Importing [app.main] imports [app.db], then [app.vectorstore], then
    [app.auth], with the environment as it is once [.env] is loaded.
    [engine_ok url] tells whether [create_async_engine(url)] returns. *)
Definition import_app (engine_ok : pyval → bool) (environ : gmap string string)
    : ImportFailure + Settings :=
  (* app/db.py *)
  let db_url := os_getenv environ "DATABASE_URL" in
  if negb (truthy db_url)
  then inl (RuntimeError "DATABASE_URL is not set in the environment variables.")
  else if negb (engine_ok db_url) then inl EngineError
  else
    (* app/vectorstore.py *)
    let api_key := os_getenv environ "OPENAI_API_KEY" in
    if negb (truthy db_url) || negb (truthy api_key)
    then inl (RuntimeError "Missing DATABASE_URL or OPENAI_API_KEY in .env")
    else if negb (engine_ok db_url) then inl EngineError
    else
      (* app/auth.py *)
      inr (mkSettings db_url api_key (os_getenv environ "SECRET_TOKEN")).

(** ** [lifespan]: start-up *)

(** [needle in hay] on [str] *)
Fixpoint str_contains (needle hay : string) : bool :=
  String.prefix needle hay ||
  match hay with
  | EmptyString => false
  | String _ hay' => str_contains needle hay'
  end.

Definition double_quote : string := String (ascii_of_nat 34) EmptyString.

(** The text looked for in the error of the table initialisation. *)
Definition already_exists : string :=
  "relation " +:+ double_quote +:+ "langchain_documents" +:+ double_quote
  +:+ " already exists".

(** An exception raised by a start-up call: its class and its [str(e)]. *)
Record RaisedError : Type := mkRaisedError {
  err_class : string;
  err_str : string
}.

(** The part of [lifespan] before [yield].  [create_all] and
    [ainit_vectorstore_table] are the outcomes of the two calls: [None] when
    the call returns, the exception when it raises. *)
Definition lifespan_startup (create_all ainit_vectorstore_table : option RaisedError)
    : result unit :=
  match create_all with
  | Some e => Raise (Exception (err_class e))
  | None =>
      match ainit_vectorstore_table with
      | None => Ok ()
      | Some e =>
          if negb (str_contains already_exists (err_str e))
          then Raise (Exception (err_class e))
          else Ok ()
      end
  end.

(** ** [custom_openapi] *)

(** JSON-like Python values: the OpenAPI schema that [get_openapi] builds. *)
#[local] Unset Elimination Schemes.
Inductive json : Type :=
  | JNull
  | JStr (s : string)
  | JList (l : list json)
  | JDict (d : gmap string json).
#[local] Set Elimination Schemes.

(** [bool(v)] of a cached schema: [None] and the empty dict are falsy. *)
Definition json_truthy (v : option json) : bool :=
  match v with
  | None | Some JNull => false
  | Some (JStr s) => negb (String.eqb s "")
  | Some (JList l) => negb (bool_decide (l = []))
  | Some (JDict d) => negb (bool_decide (d = ∅))
  end.

Definition bearer_scheme : json :=
  JDict {[ "BearerAuth" :=
    JDict {[ "type" := JStr "http"; "scheme" := JStr "bearer";
             "bearerFormat" := JStr "JWT" ]} ]}.

Definition bearer_requirement : json := JDict {[ "BearerAuth" := JList [] ]}.

(** [operation.setdefault("security", []).append({"BearerAuth": []})] *)
Definition add_security (operation : json) : option json :=
  match operation with
  | JDict op =>
      match op !! "security" with
      | None => Some (JDict (<["security" := JList [bearer_requirement]]> op))
      | Some (JList l) =>
          Some (JDict (<["security" := JList (l ++ [bearer_requirement])]> op))
      | Some _ => None
      end
  | _ => None
  end.

(** A loop that updates every value of a dict in place; [None] when the
    update of some value raises. *)
Definition for_values (f : json → option json) (d : gmap string json)
    : option (gmap string json) :=
  if decide (map_Forall (λ _ v, is_Some (f v)) d) then Some (omap f d) else None.

(** [for operation in path.values(): ...] *)
Definition secure_path (path : json) : option json :=
  match path with
  | JDict ops => JDict <$> for_values add_security ops
  | _ => None
  end.

(** [custom_openapi()]: [cached] is [app.openapi_schema] before the call and
    [generated] the value of [get_openapi(...)]; the result is the value
    returned or the exception raised, and [app.openapi_schema] after the
    call. *)
Definition custom_openapi (cached : option json) (generated : json)
    : result json * option json :=
  if json_truthy cached then (Ok (default JNull cached), cached)
  else
    match generated with
    | JDict top =>
        match top !! "components" with
        | None => (Raise (Exception "KeyError"), cached)
        | Some (JDict comps) =>
            let top1 :=
              <["components" := JDict (<["securitySchemes" := bearer_scheme]> comps)]> top in
            match top1 !! "paths" with
            | None => (Raise (Exception "KeyError"), cached)
            | Some (JDict paths) =>
                match for_values secure_path paths with
                | Some paths' =>
                    let schema := JDict (<["paths" := JDict paths']> top1) in
                    (Ok schema, Some schema)
                | None => (Raise (Exception "AttributeError"), cached)
                end
            | Some _ => (Raise (Exception "AttributeError"), cached)
            end
        | Some _ => (Raise (Exception "TypeError"), cached)
        end
    | _ => (Raise (Exception "TypeError"), cached)
    end.

(** ** Sequences of requests *)

Inductive Call : Type :=
  | CallUpload (E : Env) (file : UploadFile)
  | CallList
  | CallDelete (E : Env) (doc_id : nat)
  | CallAsk (E : Env) (req : AskRequest).

(** The stores after one request. *)
Definition after_call (w : World) (c : Call) : World :=
  match c with
  | CallUpload E file => (upload_document E file w).2
  | CallList => (list_documents w).2
  | CallDelete E doc_id => (delete_document E doc_id w).2
  | CallAsk E req => (ask E req w).2
  end.

Definition after_calls (w : World) (cs : list Call) : World :=
  foldl after_call w cs.

(** What holds of the stores after any sequence of requests: the table is
    well formed, every record's path is the upload path of its filename, and
    every indexed chunk carries the filename of its document. *)
Definition stores_inv (w : World) : Prop :=
  db_wf w ∧
  Forall (λ d, doc_filepath d = path_join UPLOAD_DIR (doc_filename d)) (db_rows w) ∧
  Forall (λ c, ∃ filename, metadata c = Some {[ "filename" := filename ]}) (vs_rows w).

(** More example inputs. *)
Definition bearer_request (token : string) : Request :=
  mkRequest (Ok (Some (mkCredentials "Bearer" token))).


(** The text of a page as it enters the result: nothing for [None]. *)
Definition pystr_text (v : pyval) : string :=
  match v with
  | PyStr s => s
  | PyNone => ""
  end.

(** [v[k]] read without raising: [None] when [v] is no dict or lacks [k]. *)
Definition json_get (k : string) (v : json) : option json :=
  match v with
  | JDict d => d !! k
  | _ => None
  end.

(** The operation of a schema at a path and a method. *)
Definition schema_operation (schema : json) (path method : string) : option json :=
  (json_get "paths" schema ≫= json_get path) ≫= json_get method.

(** The security requirements of an operation; none without the key. *)
Definition operation_security (operation : json) : list json :=
  match json_get "security" operation with
  | Some (JList l) => l
  | _ => []
  end.

(** A generated schema with one route that already requires a scheme. *)
Definition generated_schema : json :=
  JDict {[
    "openapi" := JStr "3.1.0";
    "components" := JDict {[ "securitySchemes" :=
      JDict {[ "BearerTokenAuth" := JDict {[ "type" := JStr "http" ]} ]} ]};
    "paths" := JDict {[ "/ask" := JDict {[ "post" :=
      JDict {[ "summary" := JStr "Ask";
               "security" := JList [JDict {[ "BearerTokenAuth" := JList [] ]}] ]} ]} ]}
  ]}.

(** ** The handlers against a database and a file system that can refuse *)

(** What a deployment adds to the stores of a [World]: whether the session
    can execute a statement at all, which paths are directories, and which
    paths cannot be opened (a missing parent directory, permissions). *)
Record Backend : Type := mkBackend {
  execute_raises : bool;
  is_dir : string → bool;
  open_raises : string → bool
}.

Definition NUL : string := String (ascii_of_nat 0) EmptyString.

(** A parameter that PostgreSQL accepts for a text column: no NUL in it. *)
Definition pg_text (s : string) : bool := negb (str_contains NUL s).

(** A parameter that PostgreSQL accepts for the [Integer] column [id]:
    it fits 32 bits. *)
Definition pg_int4 (n : Z) : bool :=
  (-2147483648 <=? n)%Z && (n <=? 2147483647)%Z.

(** [result = await db.execute(select(DBDocument).where(...))] followed by
    [result.scalar_one_or_none()]: the statement raises when the session
    cannot execute it or when its parameter is not [accepted]. *)
Definition db_execute_select (B : Backend) (accepted : bool)
    (p : DBDocument → bool) : M (option DBDocument) :=
  if execute_raises B || negb accepted then raise (Exception "DBAPIError")
  else db_select_one p.

(** [os.path.exists(path)]: true for a file and for a directory. *)
Definition os_path_exists_io (B : Backend) (path : string) : M bool :=
  if is_dir B path then mret true else os_path_exists path.

(** [with open(path, "wb") as f: f.write(contents)] *)
Definition open_write (B : Backend) (path : string) (contents : bytes) : M unit :=
  if is_dir B path || open_raises B path then raise (Exception "OSError")
  else write_file path contents.

(** [os.remove(path)]: raises on a directory. *)
Definition os_remove_io (B : Backend) (path : string) : M unit :=
  if is_dir B path then raise (Exception "OSError") else os_remove path.

(** [PdfReader(pdf_path)] and the pages' [extract_text()]: the file is
    opened for reading. *)
Definition read_pages (B : Backend) (E : Env) (pdf_path : string) : M (list pyval) :=
  if is_dir B pdf_path || open_raises B pdf_path then raise (Exception "OSError")
  else
    found ← gets (λ w, fs w !! pdf_path);
    match found with
    | Some raw => external "PdfReadError" (PdfReader E raw)
    | None => raise (Exception "OSError")
    end.

(** [extract_text_from_pdf] of [app/utils.py], directories included. *)
Definition extract_text_from_pdf_io (B : Backend) (E : Env) (pdf_path : string) : M string :=
  present ← os_path_exists_io B pdf_path;
  if negb present then raise (Exception "FileNotFoundError")
  else
    try_except
      (pages ← read_pages B E pdf_path;
       mret (foldl add_page_text "" pages))
      (λ e, raise (Exception "Exception")).

(** [upload_document] of [app/main.py]: the lookup may be refused and the
    file may not open. *)
Definition upload_document_io (B : Backend) (E : Env) (file : UploadFile)
    : M DocumentUploadResponse :=
  let filename := file_filename file in
  let file_path := path_join UPLOAD_DIR filename in
  existing_doc ← db_execute_select B (pg_text filename)
                   (λ d, bool_decide (doc_filename d = filename));
  match existing_doc with
  | Some _ => raise (HTTPException 400 "Document already exists")
  | None =>
      try_except
        (let contents := file_contents file in
         match contents with
         | [] => raise (HTTPException 400 "Uploaded file is empty")
         | _ =>
             open_write B file_path contents;;
             text ← extract_text_from_pdf_io B E file_path;
             chunks ← chunk_text E text;
             let docs := make_doc filename <$> chunks in
             doc ← db_add_commit E filename file_path;
             db_refresh E doc;;
             get_vectorstore E;;
             (if has_aadd_documents E then aadd_documents E filename docs
              else raise (Exception "RuntimeError"));;
             mret (mkDocumentUploadResponse (doc_id doc) filename)
         end)
        (λ e,
           match e with
           | HTTPException _ _ => raise e
           | Exception _ =>
               present ← os_path_exists_io B file_path;
               (if (present : bool) then os_remove_io B file_path else mret ());;
               raise (HTTPException 500 "Internal Server Error")
           end)
  end.

(** [delete_document] of [app/main.py]: the id is any integer of the
    request path, and the lookup may be refused. *)
Definition delete_document_io (B : Backend) (E : Env) (id : Z) : M string :=
  doc ← db_execute_select B (pg_int4 id)
          (λ d, bool_decide (Z.of_nat (doc_id d) = id));
  match doc with
  | None => raise (HTTPException 404 "Document not found")
  | Some doc =>
      try_except
        (present ← os_path_exists_io B (doc_filepath doc);
         (if (present : bool) then os_remove_io B (doc_filepath doc) else mret ());;
         db_delete_commit E doc;;
         mret "Document deleted")
        (λ e, raise (HTTPException 500 "Internal Server Error"))
  end.

(** A backend that refuses nothing. *)
Definition plain_backend : Backend := mkBackend false (λ _, false) (λ _, false).

(** The upload directory is a directory, and there is no directory [sub]
    in it. *)
Definition uploads_backend : Backend :=
  mkBackend false (λ p, String.eqb p "./uploads")
    (λ p, String.prefix "./uploads/sub/" p).

Definition nul_upload : UploadFile := mkUploadFile ("a" +:+ NUL +:+ ".pdf") [].

(** ** Import of [app/main.py], every step *)

Inductive StartFailure : Type :=
  | StartRuntimeError (msg : string)
  | StartEngineError               (* [create_async_engine] raised *)
  | StartPGEngineError             (* [PGEngine.from_engine] raised *)
  | StartOSError.                  (* [os.makedirs] raised *)

(** The collaborators of the import: whether [create_async_engine(url)],
    [PGEngine.from_engine] and [os.makedirs(UPLOAD_DIR, exist_ok=True)]
    return. *)
Record ImportEnv : Type := mkImportEnv {
  engine_returns : pyval → bool;
  from_engine_returns : bool;
  makedirs_returns : bool
}.

(** Importing [app.main]: [app/db.py], [app/vectorstore.py], [app/auth.py]
    in the order of the import statements, then the module's own
    statements, with the environment as it is once [.env] is loaded.  The
    calls that depend on the URL, on the database driver and on the file
    system are the ones that may raise here; the imports of the installed
    packages and the declarations of the modules (logging, session makers,
    classes, the application and its routes) return. *)
Definition import_main (I : ImportEnv) (environ : gmap string string)
    : StartFailure + Settings :=
  (* app/db.py *)
  let db_url := os_getenv environ "DATABASE_URL" in
  if negb (truthy db_url)
  then inl (StartRuntimeError "DATABASE_URL is not set in the environment variables.")
  else if negb (engine_returns I db_url) then inl StartEngineError
  else
    (* app/vectorstore.py *)
    let api_key := os_getenv environ "OPENAI_API_KEY" in
    if negb (truthy db_url) || negb (truthy api_key)
    then inl (StartRuntimeError "Missing DATABASE_URL or OPENAI_API_KEY in .env")
    else if negb (engine_returns I db_url) then inl StartEngineError
    else if negb (from_engine_returns I) then inl StartPGEngineError
    else
      (* app/auth.py *)
      let secret := os_getenv environ "SECRET_TOKEN" in
      (* app/main.py *)
      if negb (makedirs_returns I) then inl StartOSError
      else inr (mkSettings db_url api_key secret).

(** A pipeline whose result has an empty primary and a non-empty alternate
    answer. *)
Definition alternate_result : gmap string pyval :=
  {[ "result" := PyStr ""; "answer" := PyStr "from the alternate field" ]}.
Definition alternate_result_env : Env :=
  with_ainvoke (λ _ _, Some alternate_result) nominal_env.

(** ** Proof automation *)

Ltac run :=
  repeat (unfold mbind, M_bind, mret, M_ret, gets, modify, raise, try_except,
            external, raises_if in *; simpl in *).

(** * Properties *)

(** ** The model on concrete inputs *)

Example path_join_relative : path_join UPLOAD_DIR "doc1.pdf" = "./uploads/doc1.pdf".
Proof. reflexivity. Qed.

Example path_join_absolute : path_join UPLOAD_DIR "/etc/passwd" = "/etc/passwd".
Proof. reflexivity. Qed.

Example windows_5_3 :
  windows 10 5 3 (seq 0 10) = [[0; 1; 2; 3; 4]; [3; 4; 5; 6; 7]; [6; 7; 8; 9]].
Proof. reflexivity. Qed.

Example spec_split_text_7_2 :
  spec_split_text 7 2 "retrieval-augmented" = ["retriev"; "eval-au"; "augment"; "nted"].
Proof. reflexivity. Qed.

(** Pages without text contribute nothing. *)
Example extract_text_pages :
  (extract_text_from_pdf nominal_env "./uploads/doc1.pdf" (written doc1 empty_world)).1
  = Ok "Hello world".
Proof. reflexivity. Qed.

Example upload_doc1 :
  (upload_document nominal_env doc1 empty_world).1
  = Ok (mkDocumentUploadResponse 1 "doc1.pdf").
Proof. reflexivity. Qed.

(** Upload, then ask: the sources name the uploaded file. *)
Example upload_then_ask :
  (ask nominal_env (mkAskRequest "q") world_with_doc1).1
  = Ok (mkAskResponse (PyStr "42") ["doc1.pdf"]).
Proof. reflexivity. Qed.

(** Upload, then delete: the chunk of the deleted document is still indexed. *)
Example upload_then_delete :
  vs_rows (delete_document nominal_env 1 world_with_doc1).2
  = [make_doc "doc1.pdf" "Hello world"]
  ∧ list_documents (delete_document nominal_env 1 world_with_doc1).2
    = (Ok [], (delete_document nominal_env 1 world_with_doc1).2).
Proof. split; reflexivity. Qed.

(** ** Strings as character lists *)

Lemma length_list_ascii (s : string) :
  length (list_ascii_of_string s) = String.length s.
Proof. induction s as [|c s IH]; simpl; congruence. Qed.

Lemma length_string_of_list (l : list ascii) :
  String.length (string_of_list_ascii l) = length l.
Proof. induction l as [|c l IH]; simpl; congruence. Qed.

Lemma substring_list (l : list ascii) (n m : nat) :
  String.substring n m (string_of_list_ascii l)
  = string_of_list_ascii (take m (drop n l)).
Proof.
  revert n m. induction l as [|c l IH]; intros n m.
  - destruct n, m; reflexivity.
  - destruct n as [|n].
    + destruct m as [|m]; simpl; [reflexivity|].
      f_equal. apply (IH 0 m).
    + simpl. apply IH.
Qed.

(** ** Sliding windows *)

Section Windows.
Context {A : Type}.
Variables size step : nat.
Hypothesis step_pos : 0 < step.
Hypothesis step_le : step ≤ size.

Implicit Types l : list A.

Lemma windows_nil fuel : windows fuel size step (@nil A) = [].
Proof. by destruct fuel. Qed.

Lemma windows_short fuel l :
  l ≠ [] → length l ≤ size → length l ≤ fuel →
  windows fuel size step l = [l].
Proof.
  intros Hne Hle Hf. destruct fuel as [|fuel]; simpl.
  - destruct l; [done | simpl in Hf; lia].
  - destruct l; [done|]. by rewrite decide_True.
Qed.

Lemma windows_long fuel l :
  size < length l → length l ≤ S fuel →
  windows (S fuel) size step l
  = take size l :: windows fuel size step (drop step l).
Proof.
  intros Hlt Hf. simpl. destruct l; [simpl in Hlt; lia|].
  by rewrite decide_False by lia.
Qed.

(** The [i]-th segment starts at position [step * i]. *)
Lemma windows_lookup fuel l i c :
  length l ≤ fuel →
  windows fuel size step l !! i = Some c →
  c = take size (drop (step * i) l) ∧ step * i < length l.
Proof.
  revert l i. induction fuel as [|fuel IH]; intros l i Hf Hc; [done|].
  destruct (decide (l = [])) as [->|Hne]; [done|].
  destruct (decide (length l ≤ size)) as [Hle|Hgt].
  - rewrite windows_short in Hc by done.
    destruct i; [|done]. injection Hc as <-.
    rewrite Nat.mul_0_r, drop_0, take_ge by done.
    split; [done|]. destruct l; [done | simpl; lia].
  - rewrite windows_long in Hc by lia.
    destruct i as [|i]; simpl in Hc.
    + injection Hc as <-. rewrite Nat.mul_0_r, drop_0. split; [done | lia].
    + apply IH in Hc as [-> Hi]; [|rewrite length_drop; lia].
      rewrite length_drop in Hi. rewrite drop_drop.
      replace (step * S i) with (step + step * i) by lia. split; [done | lia].
Qed.

(** A segment that has a successor is followed by more than [size]
    characters counted from its start. *)
Lemma windows_lookup_S fuel l i c :
  length l ≤ fuel →
  windows fuel size step l !! S i = Some c →
  size + step * i < length l.
Proof.
  revert l i. induction fuel as [|fuel IH]; intros l i Hf Hc; [done|].
  destruct (decide (l = [])) as [->|Hne]; [done|].
  destruct (decide (length l ≤ size)) as [Hle|Hgt].
  - by rewrite windows_short in Hc.
  - rewrite windows_long in Hc by lia. simpl in Hc.
    destruct i as [|i]; [lia|].
    apply IH in Hc; [|rewrite length_drop; lia].
    rewrite length_drop in Hc. lia.
Qed.

Lemma windows_bounded fuel l :
  length l ≤ fuel → Forall (λ c, length c ≤ size) (windows fuel size step l).
Proof.
  intros Hf. apply Forall_lookup. intros i c Hc.
  apply windows_lookup in Hc as [-> _]; [|done].
  rewrite length_take. lia.
Qed.

(** Consecutive segments share exactly the [size - step] characters at
    positions [step * S i .. step * i + size). *)
Lemma windows_overlap fuel l i a b :
  length l ≤ fuel →
  windows fuel size step l !! i = Some a →
  windows fuel size step l !! S i = Some b →
  length a = size ∧ size - step < length b ∧
  drop (length a - (size - step)) a = take (size - step) b.
Proof.
  intros Hf Ha Hb.
  pose proof (windows_lookup_S _ _ _ _ Hf Hb) as Hlen.
  apply windows_lookup in Ha as [-> _]; [|done].
  apply windows_lookup in Hb as [-> _]; [|done].
  rewrite !length_take, !length_drop.
  split; [lia|]. split; [lia|].
  replace (size `min` (length l - step * i) - (size - step)) with step by lia.
  rewrite take_take. replace ((size - step) `min` size) with (size - step) by lia.
  replace (step * S i) with (step * i + step) by lia.
  rewrite <- drop_drop.
  generalize (drop (step * i) l). intros k.
  rewrite (take_drop_commute k (size - step) step).
  by replace (step + (size - step)) with size by lia.
Qed.
End Windows.

(** The number of segments for window 500 and step 450. *)
Lemma expected_segments_step (L : nat) :
  500 < L → expected_segments L = (1 + expected_segments (L - 450))%Z.
Proof.
  intros HL. unfold expected_segments.
  replace (- (Z.of_nat (L - 450) - 50))%Z
    with (- (Z.of_nat L - 50) + 1 * 450)%Z by lia.
  rewrite Z.div_add by lia. lia.
Qed.

Lemma expected_segments_one (L : nat) :
  50 < L → L ≤ 500 → expected_segments L = 1%Z.
Proof.
  intros H1 H2. unfold expected_segments.
  assert (- (Z.of_nat L - 50) / 450 = -1)%Z as ->; [|done].
  symmetry. apply (Z.div_unique_pos _ _ _ (500 - Z.of_nat L)); lia.
Qed.

Lemma expected_segments_zero (L : nat) :
  L ≤ 50 → expected_segments L = 0%Z.
Proof.
  intros HL. unfold expected_segments.
  rewrite Z.div_small; lia.
Qed.

Lemma windows_count fuel (l : list ascii) :
  length l ≤ fuel → 50 < length l →
  Z.of_nat (length (windows fuel 500 450 l)) = expected_segments (length l).
Proof.
  revert l. induction fuel as [|fuel IH]; intros l Hf Hl; [lia|].
  destruct (decide (length l ≤ 500)) as [Hle|Hgt].
  - assert (l ≠ []) by (intros ->; simpl in Hl; lia).
    rewrite windows_short, expected_segments_one; try done; lia.
  - rewrite windows_long by lia. simpl length.
    rewrite expected_segments_step by lia.
    rewrite Nat2Z.inj_succ, IH by (rewrite length_drop; lia).
    rewrite length_drop. lia.
Qed.

Lemma windows_count_short fuel (l : list ascii) :
  length l ≤ fuel → length l ≤ 500 →
  length (windows fuel 500 450 l) = if decide (l = []) then 0 else 1.
Proof.
  intros Hf Hl. case_decide as Hnil.
  - subst. by rewrite windows_nil.
  - rewrite windows_short; try done; lia.
Qed.

(** ** The Chunker on strings *)

Lemma spec_split_text_lookup (text : string) (i : nat) (s : string) :
  spec_split_text 500 50 text !! i = Some s →
  s = String.substring (450 * i) 500 text.
Proof.
  unfold spec_split_text. rewrite list_lookup_fmap.
  destruct (windows _ _ _ _ !! i) as [c|] eqn:Hc; [|done].
  intros [= <-]. apply windows_lookup in Hc as [-> _]; [|lia..].
  by rewrite <- substring_list, string_of_list_ascii_of_string.
Qed.

Lemma spec_split_text_bounded (text : string) :
  Forall (λ s, String.length s ≤ 500) (spec_split_text 500 50 text).
Proof.
  unfold spec_split_text. apply Forall_fmap.
  eapply Forall_impl; [apply (windows_bounded 500 450); lia|].
  intros c Hc. simpl. by rewrite length_string_of_list.
Qed.

Lemma spec_split_text_overlap (text : string) (i : nat) (a b : string) :
  spec_split_text 500 50 text !! i = Some a →
  spec_split_text 500 50 text !! S i = Some b →
  String.length a = 500 ∧ 50 < String.length b ∧
  str_suffix 50 a = str_prefix 50 b ∧ String.length (str_prefix 50 b) = 50.
Proof.
  unfold spec_split_text. rewrite !list_lookup_fmap.
  destruct (windows _ _ _ _ !! i) as [ca|] eqn:Ha; [|done].
  destruct (windows _ _ _ _ !! S i) as [cb|] eqn:Hb; [|done].
  intros [= <-] [= <-].
  destruct (windows_overlap 500 450 ltac:(lia) ltac:(lia) _ _ _ _ _
              (Nat.le_refl _) Ha Hb) as (Hla & Hlb & Hov).
  unfold str_suffix, str_prefix.
  rewrite !length_string_of_list, !substring_list, drop_0.
  change (500 - 450) with 50 in *.
  rewrite Hov, length_string_of_list, length_take.
  repeat split; try lia.
  rewrite take_ge; [done|]. rewrite length_take. lia.
Qed.

Lemma spec_split_text_count (text : string) :
  match String.length text with
  | 0 => length (spec_split_text 500 50 text) = 0
  | L => L ≤ 50 → length (spec_split_text 500 50 text) = 1
  end ∧
  (50 < String.length text →
   Z.of_nat (length (spec_split_text 500 50 text))
   = expected_segments (String.length text)).
Proof.
  unfold spec_split_text. rewrite length_fmap, <- length_list_ascii.
  set (cs := list_ascii_of_string text). split.
  - destruct (length cs) eqn:Hlen.
    + apply length_zero_iff_nil in Hlen. rewrite Hlen. done.
    + intros Hle. rewrite <- Hlen in *. rewrite windows_count_short by lia.
      rewrite decide_False; [done|]. intros Hnil. by rewrite Hnil in Hlen.
  - intros Hl. by apply windows_count.
Qed.

(** ** The table [documents] *)

Section Select.
Context {K : Type} `{EqDecision K}.
Variable key : DBDocument → K.

Lemma filter_key_absent (k : K) (rows : list DBDocument) :
  k ∉ key <$> rows →
  filter (λ d, bool_decide (key d = k) = true) rows = [].
Proof.
  induction rows as [|r rows IH]; intros Hk; [done|].
  rewrite fmap_cons, not_elem_of_cons in Hk. destruct Hk as [Hne Hk].
  rewrite filter_cons, decide_False; [by apply IH|].
  rewrite bool_decide_eq_true. congruence.
Qed.

Lemma filter_key_unique (k : K) (rows : list DBDocument) (d : DBDocument) :
  NoDup (key <$> rows) → d ∈ rows → key d = k →
  filter (λ d, bool_decide (key d = k) = true) rows = [d].
Proof.
  induction rows as [|r rows IH]; intros Hnd Hd Hk; [by apply elem_of_nil in Hd|].
  rewrite fmap_cons in Hnd. apply NoDup_cons in Hnd as [Hr Hnd].
  apply elem_of_cons in Hd as [->|Hd].
  - rewrite filter_cons, decide_True by by rewrite bool_decide_eq_true.
    f_equal. apply filter_key_absent. by rewrite <- Hk.
  - rewrite filter_cons, decide_False; [by apply IH|].
    rewrite bool_decide_eq_true. intros Heq. apply Hr.
    rewrite Heq, <- Hk. by apply list_elem_of_fmap_2.
Qed.

Lemma db_select_one_absent (k : K) (w : World) :
  k ∉ key <$> db_rows w →
  db_select_one (λ d, bool_decide (key d = k)) w = (Ok None, w).
Proof. intros Hk. unfold db_select_one. run. by rewrite filter_key_absent. Qed.

Lemma db_select_one_present (k : K) (w : World) (d : DBDocument) :
  NoDup (key <$> db_rows w) → d ∈ db_rows w → key d = k →
  db_select_one (λ d, bool_decide (key d = k)) w = (Ok (Some d), w).
Proof.
  intros Hnd Hd Hk. unfold db_select_one. run.
  by rewrite (filter_key_unique k _ d).
Qed.
End Select.

(** ** Upload *)

Section Upload.
Variable E : Env.
Variable file : UploadFile.

Lemma upload_existing (w : World) (d : DBDocument) :
  unique_filenames w → d ∈ db_rows w → doc_filename d = file_filename file →
  upload_document E file w
  = (Raise (HTTPException 400 "Document already exists"), w).
Proof.
  intros Hu Hd Hn. unfold upload_document. run.
  by rewrite (db_select_one_present doc_filename _ w d).
Qed.

Lemma upload_empty (w : World) :
  file_filename file ∉ filenames w → file_contents file = [] →
  upload_document E file w
  = (Raise (HTTPException 400 "Uploaded file is empty"), w).
Proof.
  intros Hn Hc. unfold upload_document. run.
  rewrite (db_select_one_absent doc_filename _ w) by done.
  by rewrite Hc.
Qed.

(** The handler on a fresh filename and a non-empty payload, stage by stage. *)
Lemma upload_fresh (w : World) :
  file_filename file ∉ filenames w → file_contents file ≠ [] →
  upload_document E file w =
  match PdfReader E (file_contents file) with
  | None => upload_failed file (written file w)
  | Some pages =>
      match split_text E 500 50 (foldl add_page_text "" pages) with
      | None => upload_failed file (written file w)
      | Some chunks =>
          if commit_raises E then upload_failed file (written file w)
          else if refresh_raises E then upload_failed file (committed E file (written file w))
          else if get_vectorstore_raises E then upload_failed file (committed E file (written file w))
          else if has_aadd_documents E then
            if aadd_documents_raises E then upload_failed file (committed E file (written file w))
            else (Ok (mkDocumentUploadResponse (db_next_id w) (file_filename file)),
                  indexed file chunks (committed E file (written file w)))
          else upload_failed file (committed E file (written file w))
      end
  end.
Proof.
  intros Hn Hc.
  unfold upload_document, upload_failed, indexed, committed, written,
    upload_path. run.
  rewrite (db_select_one_absent doc_filename _ w) by done.
  destruct (file_contents file) as [|b raw] eqn:Hraw; [done|].
  unfold write_file, extract_text_from_pdf, chunk_text, db_add_commit,
    db_refresh, get_vectorstore, aadd_documents, os_path_exists, os_remove.
  run.
  rewrite lookup_insert_eq. simpl.
  destruct (PdfReader E (b :: raw)) as [pages|]; simpl;
    [|by rewrite lookup_insert_eq].
  destruct (split_text E 500 50 _) as [chunks|]; simpl;
    [|by rewrite lookup_insert_eq].
  destruct (commit_raises E); simpl; [by rewrite lookup_insert_eq|].
  rewrite bool_decide_eq_false_2 by done.
  destruct (refresh_raises E); simpl; [by rewrite lookup_insert_eq|].
  destruct (get_vectorstore_raises E); simpl; [by rewrite lookup_insert_eq|].
  destruct (has_aadd_documents E); simpl; [|by rewrite lookup_insert_eq].
  destruct (aadd_documents_raises E); simpl; [by rewrite lookup_insert_eq|].
  by rewrite length_fmap.
Qed.
End Upload.

(** C1: a failure after the file is written removes the file again.  When
    the failure comes after the commit of the record (refresh, obtaining the
    vector store, adding the chunks), the record stays committed, the file
    is gone and the vector table has received nothing.  When extraction or
    chunking fails, no record is created and the file is gone. *)
Theorem upload_failure_cleanup (E : Env) (file : UploadFile) (w : World) :
  file_filename file ∉ filenames w → file_contents file ≠ [] →
  let filename := file_filename file in
  let path := path_join UPLOAD_DIR filename in
  let out := upload_document E file w in
  (∀ e, (out.1) = Raise e →
     e = HTTPException 500 "Internal Server Error" ∧ fs (out.2) !! path = None)
  ∧ ((∃ pages chunks,
        PdfReader E (file_contents file) = Some pages ∧
        split_text E 500 50 (foldl add_page_text "" pages) = Some chunks ∧
        commit_raises E = false ∧
        (refresh_raises E = true ∨ get_vectorstore_raises E = true ∨
         has_aadd_documents E = false ∨ aadd_documents_raises E = true)) →
     (out.1) = Raise (HTTPException 500 "Internal Server Error") ∧
     db_rows (out.2)
       = db_rows w ++ [mkDBDocument (db_next_id w) filename path (db_now E)] ∧
     fs (out.2) !! path = None ∧
     vs_rows (out.2) = vs_rows w ∧
     effects (out.2)
       = effects w ++ [FileWritten path; RowInserted (db_next_id w); FileRemoved path])
  ∧ ((PdfReader E (file_contents file) = None ∨
      ∃ pages, PdfReader E (file_contents file) = Some pages ∧
               split_text E 500 50 (foldl add_page_text "" pages) = None) →
     (out.1) = Raise (HTTPException 500 "Internal Server Error") ∧
     db_rows (out.2) = db_rows w ∧
     (filename ∉ filenames (out.2)) ∧
     fs (out.2) !! path = None ∧
     vs_rows (out.2) = vs_rows w ∧
     effects (out.2) = effects w ++ [FileWritten path; FileRemoved path]).
Proof.
  intros Hfresh Hne filename path out. subst out.
  rewrite upload_fresh by done.
  unfold upload_failed, indexed, committed, written, upload_path, write_file,
    os_remove. run. fold filename. fold path.
  split; [|split].
  - intros e.
    destruct (PdfReader E _); [destruct (split_text E _ _ _)|];
      destruct (commit_raises E), (refresh_raises E),
        (get_vectorstore_raises E), (has_aadd_documents E),
        (aadd_documents_raises E); simpl;
      intros [= <-] || intros [=]; by rewrite lookup_delete_eq.
  - intros (pages & chunks & -> & -> & -> & Hfail).
    destruct (refresh_raises E), (get_vectorstore_raises E),
      (has_aadd_documents E), (aadd_documents_raises E); simpl;
      try (by destruct Hfail as [?|[?|[?|?]]]);
      rewrite lookup_delete_eq, <- !(assoc_L (++)); by simpl.
  - intros [->|(pages & -> & ->)]; simpl;
      rewrite lookup_delete_eq, <- !(assoc_L (++)); by simpl.
Qed.

Lemma upload_failure_cleanup_witness :
  let indexing_fails := example_env true false false false true true in
  let unreadable := example_env false false false false true false in
  let out1 := upload_document indexing_fails doc1 empty_world in
  let out2 := upload_document unreadable doc1 empty_world in
  ((out1.1) = Raise (HTTPException 500 "Internal Server Error") ∧
   db_rows (out1.2) = [mkDBDocument 1 "doc1.pdf" "./uploads/doc1.pdf" 0] ∧
   fs (out1.2) !! "./uploads/doc1.pdf" = None ∧
   vs_rows (out1.2) = [])
  ∧
  ((out2.1) = Raise (HTTPException 500 "Internal Server Error") ∧
   db_rows (out2.2) = [] ∧
   fs (out2.2) !! "./uploads/doc1.pdf" = None).
Proof.
  intros indexing_fails unreadable out1 out2.
  assert ("doc1.pdf" ∉ filenames empty_world) as Hfresh by apply not_elem_of_nil.
  assert (file_contents doc1 ≠ []) as Hne by discriminate.
  split.
  - destruct (upload_failure_cleanup indexing_fails doc1 empty_world Hfresh Hne)
      as (_ & Hindex & _).
    destruct Hindex as (H1 & H2 & H3 & H4 & _).
    + exists [PyStr "Hello "; PyNone; PyStr ""; PyStr "world"], ["Hello world"].
      repeat split; auto.
    + repeat split; assumption.
  - destruct (upload_failure_cleanup unreadable doc1 empty_world Hfresh Hne)
      as (_ & _ & Hextract).
    destruct Hextract as (H1 & H2 & _ & H3 & _).
    + left. reflexivity.
    + repeat split; assumption.
Defined.

Lemma world_with_doc1_rows :
  db_rows world_with_doc1 = [mkDBDocument 1 "doc1.pdf" "./uploads/doc1.pdf" 0].
Proof. reflexivity. Qed.

Lemma world_with_doc1_unique : unique_filenames world_with_doc1.
Proof.
  unfold unique_filenames. rewrite world_with_doc1_rows.
  apply NoDup_singleton.
Qed.

(** C4: an upload whose filename is the filename of an existing record is
    rejected with the duplicate-name client error; nothing is stored, so the
    table still has exactly one record of that name. *)
Theorem upload_duplicate_rejected (E : Env) (file : UploadFile) (w : World) (d : DBDocument) :
  unique_filenames w → d ∈ db_rows w → doc_filename d = file_filename file →
  let out := upload_document E file w in
  (out.1) = Raise (HTTPException 400 "Document already exists") ∧
  (out.2) = w ∧
  filter (λ r, doc_filename r = file_filename file) (db_rows (out.2)) = [d].
Proof.
  intros Hu Hd Hn out. subst out.
  rewrite (upload_existing E file w d) by done. simpl.
  split; [done|]. split; [done|].
  pose proof (filter_key_unique doc_filename (file_filename file) _ d Hu Hd Hn) as Hf.
  rewrite <- Hf. apply list_filter_iff. intros r.
  by rewrite bool_decide_eq_true.
Qed.

Lemma upload_duplicate_rejected_witness :
  upload_document nominal_env doc1 world_with_doc1
  = (Raise (HTTPException 400 "Document already exists"), world_with_doc1).
Proof.
  destruct (upload_duplicate_rejected nominal_env doc1 world_with_doc1
              (mkDBDocument 1 "doc1.pdf" "./uploads/doc1.pdf" 0))
    as (H1 & H2 & _).
  - exact world_with_doc1_unique.
  - rewrite world_with_doc1_rows. apply list_elem_of_here.
  - reflexivity.
  - rewrite (surjective_pairing (upload_document _ _ _)). by rewrite H1, H2.
Defined.

(** C10: when the filename duplicates an existing record and the content is
    empty, the duplicate-name error is returned, not the empty-payload one;
    the outcome does not depend on the content at all, which the handler
    reads only after the check. *)
Theorem upload_duplicate_before_empty (E : Env) (file : UploadFile) (w : World) (d : DBDocument) :
  unique_filenames w → d ∈ db_rows w → doc_filename d = file_filename file →
  file_contents file = [] →
  upload_document E file w
  = (Raise (HTTPException 400 "Document already exists"), w) ∧
  (upload_document E file w).1 ≠ Raise (HTTPException 400 "Uploaded file is empty") ∧
  ∀ contents : bytes,
    upload_document E (mkUploadFile (file_filename file) contents) w
    = upload_document E file w.
Proof.
  intros Hu Hd Hn Hc.
  rewrite (upload_existing E file w d) by done.
  split; [done|]. split; [done|].
  intros contents. by rewrite (upload_existing E _ w d).
Qed.

Lemma upload_duplicate_before_empty_witness :
  upload_document nominal_env empty_doc1 world_with_doc1
  = (Raise (HTTPException 400 "Document already exists"), world_with_doc1).
Proof.
  apply (upload_duplicate_before_empty nominal_env empty_doc1 world_with_doc1
           (mkDBDocument 1 "doc1.pdf" "./uploads/doc1.pdf" 0)).
  - exact world_with_doc1_unique.
  - rewrite world_with_doc1_rows. apply list_elem_of_here.
  - reflexivity.
  - reflexivity.
Defined.

(** ** Delete *)

Section Delete.
Variable E : Env.

Lemma delete_absent (w : World) (id : nat) :
  id ∉ ids w →
  delete_document E id w = (Raise (HTTPException 404 "Document not found"), w).
Proof.
  intros Hid. unfold delete_document. run.
  by rewrite (db_select_one_absent doc_id _ w).
Qed.

(** The handler on the id of an existing record, stage by stage. *)
Lemma delete_present (w : World) (doc : DBDocument) :
  unique_ids w → doc ∈ db_rows w →
  delete_document E (doc_id doc) w =
  let w1 := if bool_decide (is_Some (fs w !! doc_filepath doc))
            then (os_remove (doc_filepath doc) w).2 else w in
  if commit_raises E
  then (Raise (HTTPException 500 "Internal Server Error"), w1)
  else (Ok "Document deleted", (db_delete_commit E doc w1).2).
Proof.
  intros Hu Hd. unfold delete_document. run.
  rewrite (db_select_one_present doc_id _ w doc) by done.
  unfold os_path_exists, os_remove, db_delete_commit. run.
  destruct (bool_decide (is_Some (fs w !! doc_filepath doc)));
    destruct (commit_raises E); reflexivity.
Qed.

(** No path of the handler touches the vector table. *)
Lemma delete_vs_rows (w : World) (id : nat) :
  vs_rows (delete_document E id w).2 = vs_rows w.
Proof.
  unfold delete_document, db_select_one, os_path_exists, os_remove,
    db_delete_commit. run.
  destruct (filter _ (db_rows w)) as [|doc [|doc' rows]]; simpl; try done.
  destruct (bool_decide (is_Some (fs w !! doc_filepath doc)));
    destruct (commit_raises E); reflexivity.
Qed.
End Delete.

(** C8: deleting a record leaves the vector table as it is, whatever the
    outcome: the handler removes the file and the record and does nothing
    to the chunks indexed under that filename. *)
Theorem delete_keeps_index (E : Env) (w : World) (id : nat) :
  vs_rows (delete_document E id w).2 = vs_rows w ∧
  ∀ filename,
    filter (λ c, metadata c = Some {[ "filename" := filename ]})
      (vs_rows (delete_document E id w).2)
    = filter (λ c, metadata c = Some {[ "filename" := filename ]}) (vs_rows w).
Proof.
  split; [apply delete_vs_rows|].
  intros filename. by rewrite delete_vs_rows.
Qed.

(** ** Ask *)

Lemma source_of_spec (doc : Document) : source_of doc = filename_or_empty doc.
Proof.
  unfold source_of, filename_or_empty.
  destruct (metadata doc) as [md|]; simpl; [|done].
  case_bool_decide as Hmd; [|done].
  by rewrite Hmd, lookup_empty.
Qed.

Lemma collect_sources_spec (docs : list Document) :
  collect_sources docs = filename_or_empty <$> docs.
Proof.
  unfold collect_sources.
  induction docs as [|doc docs IH] using rev_ind; [done|].
  by rewrite foldl_snoc, fmap_snoc, IH, source_of_spec.
Qed.

Lemma truthy_nonempty (v : pyval) :
  truthy v = true ↔ ∃ c s, v = PyStr (String c s).
Proof.
  destruct v as [|[|c s]]; simpl; split; try done; try by eauto.
  - by intros (? & ? & ?).
  - by intros (? & ? & ?).
Qed.

Lemma extract_answer_truthy (res : gmap string pyval) :
  truthy (extract_answer res) = true.
Proof.
  unfold extract_answer, py_or.
  destruct (truthy (dict_get res "result")) eqn:H1; rewrite ?H1; [done|].
  destruct (truthy (dict_get res "answer")) eqn:H2; rewrite ?H2; done.
Qed.

Lemma extract_answer_by_truth (res : gmap string pyval) :
  extract_answer res = answer_by_truth res.
Proof.
  unfold extract_answer, answer_by_truth, py_or, dict_get.
  destruct (res !! "result") as [[|[|c s]]|];
    destruct (res !! "answer") as [[|[|c' s']]|]; reflexivity.
Qed.

Section Ask.
Variable E : Env.
Variable req : AskRequest.
Variable w : World.

Lemma ask_ok (res : gmap string pyval) (docs : list Document) :
  get_vectorstore_raises E = false →
  ainvoke E (vs_rows w) (question req) = Some res →
  asimilarity_search E (vs_rows w) (question req) = Some docs →
  ask E req w = (Ok (mkAskResponse (extract_answer res) (collect_sources docs)), w).
Proof.
  intros Hvs Hres Hdocs. unfold ask, get_vectorstore. run.
  by rewrite Hvs, Hres, Hdocs.
Qed.

Lemma ask_ok_inv (resp : AskResponse) (w' : World) :
  ask E req w = (Ok resp, w') →
  w' = w ∧ get_vectorstore_raises E = false ∧
  ∃ res docs,
    ainvoke E (vs_rows w) (question req) = Some res ∧
    asimilarity_search E (vs_rows w) (question req) = Some docs ∧
    resp = mkAskResponse (extract_answer res) (collect_sources docs).
Proof.
  unfold ask, get_vectorstore. run.
  destruct (get_vectorstore_raises E); simpl; [done|].
  destruct (ainvoke E _ _) as [res|]; simpl; [|done].
  destruct (asimilarity_search E _ _) as [docs|]; simpl; [|done].
  intros [= <- <-]. eauto 10.
Qed.

Lemma ask_raises (e : exn) (w' : World) :
  ask E req w = (Raise e, w') →
  e = HTTPException 500 "Failed to process your query." ∧ w' = w.
Proof.
  unfold ask, get_vectorstore. run.
  destruct (get_vectorstore_raises E); simpl; [by intros [= <- <-]|].
  destruct (ainvoke E _ _) as [res|]; simpl; [|by intros [= <- <-]].
  destruct (asimilarity_search E _ _) as [docs|]; simpl; [done|].
  by intros [= <- <-].
Qed.
End Ask.

(** C3: the sources are the filenames of the chunks that the standalone
    similarity search returns, in its order, with the empty string for a
    chunk without metadata or without the key; when the search returns no
    chunk, the handler answers with no sources and a non-empty answer. *)
Theorem ask_sources (E : Env) (req : AskRequest) (w : World) :
  (∀ res docs,
     get_vectorstore_raises E = false →
     ainvoke E (vs_rows w) (question req) = Some res →
     asimilarity_search E (vs_rows w) (question req) = Some docs →
     ∃ resp, ask E req w = (Ok resp, w) ∧
             sources resp = filename_or_empty <$> docs ∧
             (docs = [] → sources resp = [] ∧ truthy (answer resp) = true))
  ∧
  (∀ resp w', ask E req w = (Ok resp, w') →
     ∃ docs, asimilarity_search E (vs_rows w) (question req) = Some docs ∧
             sources resp = filename_or_empty <$> docs).
Proof.
  split.
  - intros res docs Hvs Hres Hdocs. eexists. split; [by apply ask_ok|]. simpl.
    split; [apply collect_sources_spec|].
    intros ->. split; [done | apply extract_answer_truthy].
  - intros resp w' Hask.
    apply ask_ok_inv in Hask as (_ & _ & res & docs & _ & Hdocs & ->).
    exists docs. split; [done | apply collect_sources_spec].
Qed.

Lemma ask_sources_witness :
  (∃ resp, ask nominal_env (mkAskRequest "q") world_with_doc1 = (Ok resp, world_with_doc1) ∧
           sources resp = ["doc1.pdf"]) ∧
  (∃ resp, ask nominal_env (mkAskRequest "q") empty_world = (Ok resp, empty_world) ∧
           sources resp = [] ∧ truthy (answer resp) = true).
Proof.
  split.
  - destruct (ask_sources nominal_env (mkAskRequest "q") world_with_doc1) as [H _].
    destruct (H {[ "query" := PyStr "q"; "result" := PyStr "42" ]}
                [make_doc "doc1.pdf" "Hello world"])
      as (resp & Hask & Hsrc & _); [reflexivity..|].
    exists resp. split; [exact Hask|]. rewrite Hsrc. reflexivity.
  - destruct (ask_sources nominal_env (mkAskRequest "q") empty_world) as [H _].
    destruct (H {[ "query" := PyStr "q"; "result" := PyStr "42" ]} [])
      as (resp & Hask & _ & Hnil); [reflexivity..|].
    exists resp. split; [exact Hask|]. by apply Hnil.
Defined.

(** C6, as stated, fails: with the primary field present and bound to the
    empty string, the handler returns the placeholder, not that value. *)
Lemma ask_answer_by_presence_counterexample :
  ∃ resp,
    ask empty_result_env (mkAskRequest "q") empty_world = (Ok resp, empty_world) ∧
    ainvoke empty_result_env (vs_rows empty_world) "q" = Some empty_result ∧
    empty_result !! "result" = Some (PyStr "") ∧
    answer_by_presence empty_result = PyStr "" ∧
    answer resp = PyStr no_answer ∧
    answer resp ≠ answer_by_presence empty_result.
Proof.
  eexists. split; [reflexivity|]. repeat split; discriminate.
Qed.

(** C6, amended: the answer is the value of the primary field if it is
    present and non-empty, otherwise the value of the alternate field if it
    is present and non-empty, otherwise the placeholder.  It is the first
    present field whenever no present field is empty. *)
Theorem ask_answer_fallback (E : Env) (req : AskRequest) (w : World)
    (res : gmap string pyval) (docs : list Document) :
  get_vectorstore_raises E = false →
  ainvoke E (vs_rows w) (question req) = Some res →
  asimilarity_search E (vs_rows w) (question req) = Some docs →
  ∃ resp, ask E req w = (Ok resp, w) ∧
    answer resp = answer_by_truth res ∧
    (∀ v, res !! "result" = Some v → truthy v = true → answer resp = v) ∧
    (truthy (dict_get res "result") = false →
     ∀ v, res !! "answer" = Some v → truthy v = true → answer resp = v) ∧
    (truthy (dict_get res "result") = false →
     truthy (dict_get res "answer") = false →
     answer resp = PyStr no_answer) ∧
    ((∀ k v, k = "result" ∨ k = "answer" → res !! k = Some v → truthy v = true) →
     answer resp = answer_by_presence res).
Proof.
  intros Hvs Hres Hdocs. eexists. split; [by apply ask_ok|]. simpl.
  split; [apply extract_answer_by_truth|].
  unfold extract_answer, answer_by_presence, py_or, dict_get.
  repeat split.
  - intros v -> Hv. simpl. by repeat (rewrite Hv; simpl).
  - intros -> v -> Hv. simpl. by repeat (rewrite Hv; simpl).
  - by intros -> ->.
  - intros Hall.
    destruct (res !! "result") as [v1|] eqn:H1; simpl.
    + by repeat (rewrite (Hall "result" v1) by auto; simpl).
    + destruct (res !! "answer") as [v2|] eqn:H2; simpl; [|done].
      by repeat (rewrite (Hall "answer" v2) by auto; simpl).
Qed.

Lemma ask_answer_fallback_witness :
  ∃ resp,
    ask nominal_env (mkAskRequest "q") world_with_doc1 = (Ok resp, world_with_doc1) ∧
    answer resp = PyStr "42".
Proof.
  destruct (ask_answer_fallback nominal_env (mkAskRequest "q") world_with_doc1
              {[ "query" := PyStr "q"; "result" := PyStr "42" ]}
              [make_doc "doc1.pdf" "Hello world"])
    as (resp & Hask & _ & Hprimary & _); [reflexivity..|].
  exists resp. split; [exact Hask|].
  by apply Hprimary.
Defined.

(** C2: with the Chunker of the spec, a text of length L is cut into
    ⌈(L - 50) / 450⌉ segments (exactly when L is 0 or above 50, and one more
    when 1 ≤ L ≤ 50); segment [i] is the at most 500 characters from
    position [450 * i]; every segment that has a successor is 500 long and
    its last 50 characters are the first 50 of the successor. *)
Theorem chunk_text_segments (E : Env) (w : World) (text : string) :
  split_text E 500 50 text = Some (spec_split_text 500 50 text) →
  ∃ segs, chunk_text E text w = (Ok segs, w) ∧
    (String.length text = 0 ∨ 50 < String.length text →
     Z.of_nat (length segs) = expected_segments (String.length text)) ∧
    (Z.abs (Z.of_nat (length segs) - expected_segments (String.length text)) ≤ 1)%Z ∧
    Forall (λ s, String.length s ≤ 500) segs ∧
    (∀ i s, segs !! i = Some s → s = String.substring (450 * i) 500 text) ∧
    (∀ i a b, segs !! i = Some a → segs !! S i = Some b →
       String.length a = 500 ∧ 50 < String.length b ∧
       str_suffix 50 a = str_prefix 50 b ∧
       String.length (str_prefix 50 b) = 50).
Proof.
  intros Hsplit. exists (spec_split_text 500 50 text).
  split; [unfold chunk_text; by rewrite Hsplit|].
  pose proof (spec_split_text_count text) as [Hsmall Hlarge].
  split; [|split; [|split; [|split]]].
  - intros [H0|Hgt]; [|by apply Hlarge].
    rewrite H0 in *. rewrite Hsmall, expected_segments_zero; [done | lia].
  - destruct (decide (50 < String.length text)) as [Hgt|Hle].
    + rewrite Hlarge by done. lia.
    + rewrite expected_segments_zero by lia.
      destruct (String.length text) as [|n]; [rewrite Hsmall; lia|].
      rewrite Hsmall by lia. lia.
  - apply spec_split_text_bounded.
  - apply spec_split_text_lookup.
  - apply spec_split_text_overlap.
Qed.

Lemma chunk_text_segments_witness :
  ∃ segs, chunk_text nominal_env sample_text empty_world = (Ok segs, empty_world) ∧
          length segs = 3 ∧
          Forall (λ s, String.length s ≤ 500) segs.
Proof.
  destruct (chunk_text_segments nominal_env empty_world sample_text)
    as (segs & Hrun & Hcount & _ & Hlen & _); [reflexivity|].
  exists segs. split; [exact Hrun|]. split; [|exact Hlen].
  assert (String.length sample_text = 960) as HL by (vm_compute; reflexivity).
  rewrite HL in Hcount.
  assert (expected_segments 960 = 3%Z) as Hexp by (vm_compute; reflexivity).
  rewrite Hexp in Hcount. apply Nat2Z.inj. apply Hcount. right. lia.
Defined.

(** ** The handlers keep the table well formed *)

Lemma db_wf_same_table (w w' : World) :
  db_rows w' = db_rows w → db_next_id w' = db_next_id w → db_wf w → db_wf w'.
Proof.
  unfold db_wf, unique_filenames, unique_ids. by intros -> ->.
Qed.

Lemma NoDup_fmap_filter {A B} (f : A → B) (P : A → Prop) `{∀ x, Decision (P x)}
    (l : list A) :
  NoDup (f <$> l) → NoDup (f <$> filter P l).
Proof.
  induction l as [|x l IH]; [done|].
  rewrite fmap_cons, NoDup_cons. intros [Hx Hl].
  rewrite filter_cons. case_decide; [|by apply IH].
  rewrite fmap_cons. apply NoDup_cons. split; [|by apply IH].
  intros Hin. apply Hx.
  apply list_elem_of_fmap in Hin as (y & -> & Hy).
  apply list_elem_of_filter in Hy as [_ Hy]. by apply list_elem_of_fmap_2.
Qed.

Lemma db_wf_committed (E : Env) (file : UploadFile) (w : World) :
  db_wf w → file_filename file ∉ filenames w → db_wf (committed E file w).
Proof.
  intros (Hn & Hi & Hlt) Hfresh.
  unfold db_wf, unique_filenames, unique_ids, committed in *. simpl.
  rewrite !fmap_app. simpl. repeat split.
  - apply NoDup_app. split; [done|]. split; [|apply NoDup_singleton].
    intros x Hx Hx'. apply list_elem_of_singleton in Hx'. by subst.
  - apply NoDup_app. split; [done|]. split; [|apply NoDup_singleton].
    intros x Hx Hx'. apply list_elem_of_singleton in Hx'. subst.
    apply list_elem_of_fmap in Hx as (d & Hd & Hin).
    rewrite Forall_forall in Hlt. specialize (Hlt d Hin). lia.
  - apply Forall_app. split; [|apply Forall_singleton; simpl; lia].
    eapply Forall_impl; [exact Hlt|]. simpl. lia.
Qed.

Lemma upload_preserves_wf (E : Env) (file : UploadFile) (w : World) :
  db_wf w → db_wf (upload_document E file w).2.
Proof.
  intros Hwf.
  destruct (decide (file_filename file ∈ filenames w)) as [Hin|Hfresh].
  { apply list_elem_of_fmap in Hin as (d & Hd & Hin).
    rewrite (upload_existing E file w d); [done | apply Hwf | done..]. }
  destruct (decide (file_contents file = [])) as [Hempty|Hne].
  { by rewrite upload_empty. }
  rewrite upload_fresh by done.
  assert (db_wf (written file w)) as Hw
    by (by apply (db_wf_same_table w)).
  assert (db_wf (committed E file (written file w))) as Hc
    by (by apply db_wf_committed).
  destruct (PdfReader E _); [destruct (split_text E _ _ _)|];
    destruct (commit_raises E), (refresh_raises E),
      (get_vectorstore_raises E), (has_aadd_documents E),
      (aadd_documents_raises E); simpl;
    (eapply db_wf_same_table; [| |exact Hw]; reflexivity)
    || (eapply db_wf_same_table; [| |exact Hc]; reflexivity).
Qed.

Lemma delete_preserves_wf (E : Env) (id : nat) (w : World) :
  db_wf w → db_wf (delete_document E id w).2.
Proof.
  intros Hwf.
  destruct (decide (id ∈ ids w)) as [Hin|Hnot]; [|by rewrite delete_absent].
  apply list_elem_of_fmap in Hin as (doc & -> & Hin).
  rewrite delete_present; [|apply Hwf | done]. cbv zeta.
  set (w1 := if bool_decide _ then _ else w).
  assert (db_rows w1 = db_rows w ∧ db_next_id w1 = db_next_id w) as [Hr Hi]
    by (subst w1; by destruct (bool_decide _)).
  destruct (commit_raises E) eqn:Hcommit; simpl.
  - by apply (db_wf_same_table w).
  - unfold db_delete_commit. run. rewrite Hcommit. simpl.
    destruct Hwf as (Hn & Hid & Hlt).
    unfold db_wf, unique_filenames, unique_ids in *. simpl. rewrite Hr, Hi.
    repeat split; [by apply NoDup_fmap_filter..|].
    rewrite Forall_forall in *. intros d Hd.
    apply list_elem_of_filter in Hd as [_ Hd]. by apply Hlt.
Qed.

(** * Further properties of the handlers *)

(** ** Outcomes of an upload *)

Section SelectInv.
Context {K : Type} `{EqDecision K}.
Variable key : DBDocument → K.

Lemma filter_key_nil_inv (k : K) (rows : list DBDocument) :
  filter (λ d, bool_decide (key d = k) = true) rows = [] → k ∉ key <$> rows.
Proof.
  intros Hnil Hin. apply list_elem_of_fmap in Hin as (d & -> & Hd).
  assert (d ∈ filter (λ d', bool_decide (key d' = key d) = true) rows) as Hf.
  { apply list_elem_of_filter. split; [by apply bool_decide_eq_true | done]. }
  rewrite Hnil in Hf. by apply elem_of_nil in Hf.
Qed.

Lemma filter_key_elem (k : K) (rows : list DBDocument) (d : DBDocument) :
  d ∈ filter (λ d, bool_decide (key d = k) = true) rows → d ∈ rows ∧ key d = k.
Proof.
  intros Hd. apply list_elem_of_filter in Hd as [Hk Hd].
  by apply bool_decide_eq_true in Hk.
Qed.
End SelectInv.

Lemma upload_ok (E : Env) (file : UploadFile) (w : World)
    (pages : list pyval) (chunks : list string) :
  file_filename file ∉ filenames w → file_contents file ≠ [] →
  PdfReader E (file_contents file) = Some pages →
  split_text E 500 50 (foldl add_page_text "" pages) = Some chunks →
  commit_raises E = false → refresh_raises E = false →
  get_vectorstore_raises E = false →
  has_aadd_documents E = true → aadd_documents_raises E = false →
  upload_document E file w
  = (Ok (mkDocumentUploadResponse (db_next_id w) (file_filename file)),
     indexed file chunks (committed E file (written file w))).
Proof.
  intros Hfresh Hne Hp Hs Hc Hr Hv Hh Ha.
  rewrite upload_fresh by done. by rewrite Hp, Hs, Hc, Hr, Hv, Hh, Ha.
Qed.

(** A filename that some record has: the stores are left as they are. *)
Lemma upload_known_world (E : Env) (file : UploadFile) (w : World) :
  file_filename file ∈ filenames w → (upload_document E file w).2 = w.
Proof.
  intros Hin. unfold upload_document, db_select_one. run.
  destruct (filter _ (db_rows w)) as [|d [|d' rows]] eqn:Hf; simpl; try done.
  exfalso. by apply (filter_key_nil_inv doc_filename) in Hf.
Qed.

(** The stores after an upload are one of four. *)
Lemma upload_world_cases (E : Env) (file : UploadFile) (w : World) :
  let w' := (upload_document E file w).2 in
  w' = w ∨
  ((file_filename file ∉ filenames w) ∧ file_contents file ≠ [] ∧
   (w' = (upload_failed file (written file w)).2 ∨
    w' = (upload_failed file (committed E file (written file w))).2 ∨
    ∃ chunks, w' = indexed file chunks (committed E file (written file w)))).
Proof.
  intros w'. subst w'.
  destruct (decide (file_filename file ∈ filenames w)) as [Hin|Hfresh];
    [left; by apply upload_known_world|].
  destruct (decide (file_contents file = [])) as [Hempty|Hne];
    [left; by rewrite upload_empty|].
  right. split; [done|]. split; [done|].
  rewrite upload_fresh by done.
  destruct (PdfReader E _); [destruct (split_text E _ _ _)|];
    destruct (commit_raises E), (refresh_raises E),
      (get_vectorstore_raises E), (has_aadd_documents E),
      (aadd_documents_raises E); simpl; eauto.
Qed.

Lemma upload_ok_world (E : Env) (file : UploadFile) (w w' : World)
    (resp : DocumentUploadResponse) :
  upload_document E file w = (Ok resp, w') →
  (file_filename file ∉ filenames w) ∧ file_contents file ≠ [] ∧
  ∃ pages chunks,
    PdfReader E (file_contents file) = Some pages ∧
    split_text E 500 50 (foldl add_page_text "" pages) = Some chunks ∧
    commit_raises E = false ∧ refresh_raises E = false ∧
    get_vectorstore_raises E = false ∧
    has_aadd_documents E = true ∧ aadd_documents_raises E = false ∧
    resp = mkDocumentUploadResponse (db_next_id w) (file_filename file) ∧
    w' = indexed file chunks (committed E file (written file w)).
Proof.
  intros Hup.
  assert (file_filename file ∉ filenames w) as Hfresh.
  { intros Hin. revert Hup. unfold upload_document, db_select_one. run.
    destruct (filter _ (db_rows w)) as [|d [|d' rows]] eqn:Hf; simpl; try done.
    by apply (filter_key_nil_inv doc_filename) in Hf. }
  assert (file_contents file ≠ []) as Hne.
  { intros Hempty. by rewrite upload_empty in Hup. }
  split; [done|]. split; [done|].
  rewrite upload_fresh in Hup by done. unfold upload_failed in Hup.
  destruct (PdfReader E _) as [pages|] eqn:Hp; [|done].
  destruct (split_text E _ _ _) as [chunks|] eqn:Hs; [|done].
  destruct (commit_raises E), (refresh_raises E),
    (get_vectorstore_raises E), (has_aadd_documents E),
    (aadd_documents_raises E); try done.
  injection Hup as <- <-. exists pages, chunks. by repeat split.
Qed.

(** X2: an upload reports success only when the filename was fresh, the
    content non-empty and every collaborator answered; the stores are then
    those of a complete upload: file, record and chunks are all there. *)
Theorem upload_ok_only_if_stored (E : Env) (file : UploadFile) (w w' : World)
    (resp : DocumentUploadResponse) :
  upload_document E file w = (Ok resp, w') →
  (file_filename file ∉ filenames w) ∧ file_contents file ≠ [] ∧
  resp = mkDocumentUploadResponse (db_next_id w) (file_filename file) ∧
  fs w' !! path_join UPLOAD_DIR (file_filename file) = Some (file_contents file) ∧
  (∃ d, db_rows w' = db_rows w ++ [d] ∧ doc_id d = resp_id resp ∧
        doc_filename d = file_filename file ∧
        doc_filepath d = path_join UPLOAD_DIR (file_filename file)) ∧
  (∃ chunks, vs_rows w' = vs_rows w ++ (make_doc (file_filename file) <$> chunks)) ∧
  get_vectorstore_raises E = false ∧ commit_raises E = false.
Proof.
  intros Hup.
  apply upload_ok_world in Hup
    as (Hfresh & Hne & pages & chunks & _ & _ & Hc & _ & Hv & _ & _ & -> & ->).
  unfold indexed, committed, written, upload_path, write_file. run.
  repeat split; try done.
  - apply lookup_insert_eq.
  - by eexists.
  - by eexists.
Qed.

Lemma upload_ok_only_if_stored_witness :
  fs world_with_doc1 !! "./uploads/doc1.pdf" = Some (file_contents doc1).
Proof.
  apply (upload_ok_only_if_stored nominal_env doc1 empty_world world_with_doc1
           (mkDocumentUploadResponse 1 "doc1.pdf")).
  reflexivity.
Defined.

(** X3: whatever its outcome, an upload leaves every file other than its
    own upload path untouched, keeps the existing records and the existing
    chunks, in order, and never lowers the id sequence. *)
Theorem upload_frame (E : Env) (file : UploadFile) (w : World) :
  let out := upload_document E file w in
  (∀ p, p ≠ path_join UPLOAD_DIR (file_filename file) →
        fs (out.2) !! p = fs w !! p) ∧
  db_rows w `prefix_of` db_rows (out.2) ∧
  vs_rows w `prefix_of` vs_rows (out.2) ∧
  effects w `prefix_of` effects (out.2) ∧
  db_next_id w ≤ db_next_id (out.2).
Proof.
  intros out. subst out.
  destruct (upload_world_cases E file w)
    as [->|(_ & _ & [->|[->|[chunks ->]]])];
    unfold upload_failed, indexed, committed, written, upload_path,
      write_file, os_remove; run.
  - done.
  - repeat split; try done; try (by repeat apply prefix_app_r).
    intros p Hp. by rewrite lookup_delete_ne, lookup_insert_ne.
  - repeat split; try done; try (by repeat apply prefix_app_r); try lia.
    intros p Hp. by rewrite lookup_delete_ne, lookup_insert_ne.
  - repeat split; try done; try (by repeat apply prefix_app_r); try lia.
    intros p Hp. by rewrite lookup_insert_ne.
Qed.



(** ** Outcomes of a delete *)

Lemma filter_Forall_id {A} (P : A → Prop) `{∀ x, Decision (P x)} (l : list A) :
  Forall P l → filter P l = l.
Proof.
  induction 1 as [|x l Hx Hl IH]; [done|].
  by rewrite filter_cons_True, IH.
Qed.

(** The stores after a delete: unchanged, or those of one record of the
    given id with its file removed and, unless the commit raises, the
    record deleted. *)
Lemma delete_world_cases (E : Env) (id : nat) (w : World) :
  let w' := (delete_document E id w).2 in
  w' = w ∨
  ∃ doc, doc ∈ db_rows w ∧ doc_id doc = id ∧
    let w1 := if bool_decide (is_Some (fs w !! doc_filepath doc))
              then (os_remove (doc_filepath doc) w).2 else w in
    (w' = w1 ∧ commit_raises E = true) ∨
    (w' = log_effect (RowDeleted id)
            (set_db_rows (filter (λ d, doc_id d ≠ id) (db_rows w1)) w1) ∧
     commit_raises E = false).
Proof.
  intros w'. subst w'.
  unfold delete_document, db_select_one, os_path_exists, os_remove,
    db_delete_commit. run.
  destruct (filter _ (db_rows w)) as [|doc [|doc' rows]] eqn:Hf; simpl; auto.
  right. exists doc.
  assert (doc ∈ db_rows w ∧ doc_id doc = id) as [Hin Hid].
  { apply (filter_key_elem doc_id). rewrite Hf. apply list_elem_of_here. }
  split; [done|]. split; [done|]. subst id.
  destruct (bool_decide (is_Some (fs w !! doc_filepath doc)));
    destruct (commit_raises E); simpl; auto.
Qed.

Lemma delete_ok (E : Env) (w : World) (doc : DBDocument) :
  unique_ids w → doc ∈ db_rows w → commit_raises E = false →
  delete_document E (doc_id doc) w
  = (Ok "Document deleted",
     let w1 := if bool_decide (is_Some (fs w !! doc_filepath doc))
               then (os_remove (doc_filepath doc) w).2 else w in
     log_effect (RowDeleted (doc_id doc))
       (set_db_rows (filter (λ d, doc_id d ≠ doc_id doc) (db_rows w1)) w1)).
Proof.
  intros Hu Hd Hc. rewrite delete_present by done. rewrite Hc.
  unfold db_delete_commit. run. by rewrite Hc.
Qed.

(** X5: whatever its outcome, a delete leaves every file untouched that is
    not the file of a record of the given id, keeps every record of another
    id, adds no record and leaves the id sequence as it is. *)
Theorem delete_frame (E : Env) (id : nat) (w : World) :
  let out := delete_document E id w in
  (∀ p, (∀ d, d ∈ db_rows w → doc_id d = id → doc_filepath d ≠ p) →
        fs (out.2) !! p = fs w !! p) ∧
  (∀ d, d ∈ db_rows w → doc_id d ≠ id → d ∈ db_rows (out.2)) ∧
  (∀ d, d ∈ db_rows (out.2) → d ∈ db_rows w) ∧
  db_next_id (out.2) = db_next_id w ∧
  effects w `prefix_of` effects (out.2).
Proof.
  intros out. subst out.
  destruct (delete_world_cases E id w) as [->|(doc & Hin & Hid & Hcase)];
    [done|].
  cbv zeta in Hcase. unfold os_remove in Hcase. run.
  assert (∀ p, (∀ d, d ∈ db_rows w → doc_id d = id → doc_filepath d ≠ p) →
               delete (doc_filepath doc) (fs w) !! p = fs w !! p) as Hfs.
  { intros p Hp. apply lookup_delete_ne. by apply Hp. }
  destruct Hcase as [[-> _]|[-> _]];
    destruct (bool_decide (is_Some (fs w !! doc_filepath doc))); simpl;
    repeat split; try done; try (by repeat apply prefix_app_r).
  all: try (intros d Hd Hne; apply list_elem_of_filter; by split).
  all: intros d Hd; by apply list_elem_of_filter in Hd as [_ Hd].
Qed.

(** X6: when the commit of a delete raises, the handler answers with the
    generic server error; the file is already removed and the record is
    still in the table, so a later listing still shows the id. *)
Theorem delete_commit_failure (E : Env) (w : World) (doc : DBDocument) :
  unique_ids w → doc ∈ db_rows w → commit_raises E = true →
  let out := delete_document E (doc_id doc) w in
  (out.1) = Raise (HTTPException 500 "Internal Server Error") ∧
  fs (out.2) = delete (doc_filepath doc) (fs w) ∧
  db_rows (out.2) = db_rows w ∧
  (∃ listing, list_documents (out.2) = (Ok listing, (out.2)) ∧
              (doc_id doc, doc_filename doc) ∈ listing).
Proof.
  intros Hu Hd Hc out. subst out.
  rewrite delete_present by done. rewrite Hc. cbv zeta. unfold os_remove. run.
  split; [done|]. split.
  { destruct (bool_decide (is_Some _)) eqn:Hp; simpl; [done|].
    apply bool_decide_eq_false in Hp. symmetry. apply delete_id.
    by apply eq_None_not_Some. }
  split; [by destruct (bool_decide (is_Some _))|].
  eexists. split; [reflexivity|].
  apply list_elem_of_fmap. exists doc. split; [done|].
  by destruct (bool_decide (is_Some _)).
Qed.

Lemma delete_commit_failure_witness :
  let E := example_env true true false false true false in
  let out := delete_document E 1 world_with_doc1 in
  (out.1) = Raise (HTTPException 500 "Internal Server Error") ∧
  fs (out.2) !! "./uploads/doc1.pdf" = None ∧
  db_rows (out.2) = db_rows world_with_doc1.
Proof.
  intros E out.
  destruct (delete_commit_failure E world_with_doc1
              (mkDBDocument 1 "doc1.pdf" "./uploads/doc1.pdf" 0))
    as (H1 & H2 & H3 & _).
  - unfold unique_ids. rewrite world_with_doc1_rows. apply NoDup_singleton.
  - rewrite world_with_doc1_rows. apply list_elem_of_here.
  - reflexivity.
  - split; [exact H1|]. split; [|exact H3].
    subst out. simpl doc_id in H2. rewrite H2. apply lookup_delete_eq.
Defined.

(** X7: after a successful delete, a second delete of the same id finds no
    record: it answers not-found and changes nothing. *)
Theorem delete_twice (E E' : Env) (w : World) (doc : DBDocument) :
  unique_ids w → doc ∈ db_rows w → commit_raises E = false →
  let w1 := (delete_document E (doc_id doc) w).2 in
  delete_document E' (doc_id doc) w1
  = (Raise (HTTPException 404 "Document not found"), w1).
Proof.
  intros Hu Hd Hc w1. subst w1. rewrite (delete_ok E w doc) by done. cbv zeta.
  apply delete_absent. unfold ids. simpl.
  intros Hin. apply list_elem_of_fmap in Hin as (d & Hid & Hin).
  destruct (bool_decide (is_Some _)); simpl in Hin;
    apply list_elem_of_filter in Hin as [Hne _]; by apply Hne.
Qed.

Lemma delete_twice_witness :
  let w1 := (delete_document nominal_env 1 world_with_doc1).2 in
  delete_document nominal_env 1 w1
  = (Raise (HTTPException 404 "Document not found"), w1).
Proof.
  apply (delete_twice nominal_env nominal_env world_with_doc1
           (mkDBDocument 1 "doc1.pdf" "./uploads/doc1.pdf" 0)).
  - unfold unique_ids. rewrite world_with_doc1_rows. apply NoDup_singleton.
  - rewrite world_with_doc1_rows. apply list_elem_of_here.
  - reflexivity.
Defined.

(** ** Upload and delete together *)

Lemma world_ext (w1 w2 : World) :
  db_rows w1 = db_rows w2 → db_next_id w1 = db_next_id w2 →
  fs w1 = fs w2 → vs_rows w1 = vs_rows w2 → effects w1 = effects w2 →
  w1 = w2.
Proof. destruct w1, w2. simpl. by intros -> -> -> -> ->. Qed.

Lemma db_wf_uploaded (E : Env) (file : UploadFile) (chunks : list string) (w : World) :
  db_wf w → file_filename file ∉ filenames w →
  db_wf (indexed file chunks (committed E file (written file w))).
Proof.
  intros Hwf Hfresh.
  apply (db_wf_same_table (committed E file (written file w))); [done..|].
  apply db_wf_committed; [|done]. by apply (db_wf_same_table w).
Qed.

(** The stores after a complete upload followed by the delete of its id. *)
Lemma upload_delete_world (E E' : Env) (file : UploadFile) (chunks : list string) (w : World) :
  db_wf w → file_filename file ∉ filenames w → commit_raises E' = false →
  let path := path_join UPLOAD_DIR (file_filename file) in
  delete_document E' (db_next_id w)
    (indexed file chunks (committed E file (written file w)))
  = (Ok "Document deleted",
     mkWorld (db_rows w) (S (db_next_id w)) (delete path (fs w))
       (vs_rows w ++ (make_doc (file_filename file) <$> chunks))
       (effects w ++ [FileWritten path; RowInserted (db_next_id w);
                      ChunksIndexed (file_filename file) (length chunks);
                      FileRemoved path; RowDeleted (db_next_id w)])).
Proof.
  intros Hwf Hfresh Hc path.
  set (doc := mkDBDocument (db_next_id w) (file_filename file) path (db_now E)).
  pose proof (db_wf_uploaded E file chunks w Hwf Hfresh) as (_ & Hids & _).
  change (db_next_id w) with (doc_id doc) at 1.
  rewrite (delete_ok E' _ doc Hids); [|by apply elem_of_app; right; apply list_elem_of_here|done].
  cbv zeta. unfold indexed, committed, written, upload_path, write_file, os_remove.
  run. fold path. rewrite lookup_insert_eq. simpl.
  rewrite delete_insert_eq, filter_app, filter_cons_False, filter_nil
    by (intros Hne; by apply Hne).
  rewrite filter_Forall_id, app_nil_r.
  - f_equal. apply world_ext; simpl; try done.
    by rewrite <- !(assoc_L (++)).
  - destruct Hwf as (_ & _ & Hlt). eapply Forall_impl; [exact Hlt|].
    simpl. lia.
Qed.

(** X8: a complete upload followed by the delete of the id it returned
    restores the table and the listing; the file is gone, the id is not
    given back to the sequence, and the chunks of the deleted document stay
    in the vector table. *)
Theorem upload_delete_round_trip (E E' : Env) (file : UploadFile) (w : World)
    (pages : list pyval) (chunks : list string) :
  db_wf w →
  file_filename file ∉ filenames w → file_contents file ≠ [] →
  PdfReader E (file_contents file) = Some pages →
  split_text E 500 50 (foldl add_page_text "" pages) = Some chunks →
  commit_raises E = false → refresh_raises E = false →
  get_vectorstore_raises E = false →
  has_aadd_documents E = true → aadd_documents_raises E = false →
  commit_raises E' = false →
  let path := path_join UPLOAD_DIR (file_filename file) in
  let out1 := upload_document E file w in
  let out2 := delete_document E' (db_next_id w) (out1.2) in
  (out1.1) = Ok (mkDocumentUploadResponse (db_next_id w) (file_filename file)) ∧
  (out2.1) = Ok "Document deleted" ∧
  db_rows (out2.2) = db_rows w ∧
  (list_documents (out2.2)).1 = (list_documents w).1 ∧
  fs (out2.2) = delete path (fs w) ∧
  (fs w !! path = None → fs (out2.2) = fs w) ∧
  db_next_id (out2.2) = S (db_next_id w) ∧
  vs_rows (out2.2) = vs_rows w ++ (make_doc (file_filename file) <$> chunks).
Proof.
  intros Hwf Hfresh Hne Hp Hs Hc Hr Hv Hh Ha Hc' path out1 out2.
  subst out2 out1. rewrite (upload_ok E file w pages chunks) by done. simpl.
  rewrite upload_delete_world by done. simpl. fold path.
  repeat split. intros Hnone. by apply delete_id.
Qed.

Lemma upload_delete_round_trip_witness :
  let out1 := upload_document nominal_env doc1 empty_world in
  let out2 := delete_document nominal_env 1 (out1.2) in
  db_rows (out2.2) = [] ∧ fs (out2.2) = ∅ ∧
  vs_rows (out2.2) = [make_doc "doc1.pdf" "Hello world"].
Proof.
  destruct (upload_delete_round_trip nominal_env nominal_env doc1 empty_world
              [PyStr "Hello "; PyNone; PyStr ""; PyStr "world"] ["Hello world"])
    as (_ & _ & H1 & _ & _ & H2 & _ & H3);
    [| apply not_elem_of_nil | discriminate | reflexivity..|].
  - repeat split; apply NoDup_nil_2 || apply Forall_nil_2.
  - split; [exact H1|]. split; [|exact H3]. apply H2. reflexivity.
Defined.

(** X9: after a complete upload and the delete of its record, the same file
    can be uploaded again; it receives the next id, and the vector table
    then holds the chunks of both uploads. *)
Theorem reupload_after_delete (E E' : Env) (file : UploadFile) (w : World)
    (pages : list pyval) (chunks : list string) :
  db_wf w →
  file_filename file ∉ filenames w → file_contents file ≠ [] →
  PdfReader E (file_contents file) = Some pages →
  split_text E 500 50 (foldl add_page_text "" pages) = Some chunks →
  commit_raises E = false → refresh_raises E = false →
  get_vectorstore_raises E = false →
  has_aadd_documents E = true → aadd_documents_raises E = false →
  commit_raises E' = false →
  let filename := file_filename file in
  let path := path_join UPLOAD_DIR filename in
  let w2 := (delete_document E' (db_next_id w) (upload_document E file w).2).2 in
  let out3 := upload_document E file w2 in
  (out3.1) = Ok (mkDocumentUploadResponse (S (db_next_id w)) filename) ∧
  db_rows (out3.2)
    = db_rows w ++ [mkDBDocument (S (db_next_id w)) filename path (db_now E)] ∧
  fs (out3.2) !! path = Some (file_contents file) ∧
  vs_rows (out3.2)
    = vs_rows w ++ (make_doc filename <$> chunks) ++ (make_doc filename <$> chunks).
Proof.
  intros Hwf Hfresh Hne Hp Hs Hc Hr Hv Hh Ha Hc' filename path w2 out3.
  subst out3 w2. rewrite (upload_ok E file w pages chunks) by done. simpl.
  rewrite upload_delete_world by done. simpl.
  rewrite (upload_ok E file _ pages chunks) by done.
  unfold indexed, committed, written, upload_path, write_file. run.
  fold filename. fold path.
  repeat split; [apply lookup_insert_eq | by rewrite <- (assoc_L (++))].
Qed.

Lemma reupload_after_delete_witness :
  let w2 := (delete_document nominal_env 1 world_with_doc1).2 in
  let out3 := upload_document nominal_env doc1 w2 in
  (out3.1) = Ok (mkDocumentUploadResponse 2 "doc1.pdf") ∧
  vs_rows (out3.2)
  = [make_doc "doc1.pdf" "Hello world"; make_doc "doc1.pdf" "Hello world"].
Proof.
  destruct (reupload_after_delete nominal_env nominal_env doc1 empty_world
              [PyStr "Hello "; PyNone; PyStr ""; PyStr "world"] ["Hello world"])
    as (H1 & _ & _ & H2);
    [| apply not_elem_of_nil | discriminate | reflexivity..|].
  - repeat split; apply NoDup_nil_2 || apply Forall_nil_2.
  - split; [exact H1 | exact H2].
Defined.

(** ** What every sequence of requests keeps *)

Lemma ask_world (E : Env) (req : AskRequest) (w : World) :
  (ask E req w).2 = w.
Proof.
  destruct (ask E req w) as [[resp|e] w'] eqn:Hask; simpl.
  - by apply ask_ok_inv in Hask as [-> _].
  - by apply ask_raises in Hask as [_ ->].
Qed.

Lemma upload_preserves_inv (E : Env) (file : UploadFile) (w : World) :
  stores_inv w → stores_inv (upload_document E file w).2.
Proof.
  intros (Hwf & Hpaths & Htags).
  split; [by apply upload_preserves_wf|].
  destruct (upload_world_cases E file w)
    as [->|(_ & _ & [->|[->|[chunks ->]]])]; [done|..];
    unfold upload_failed, indexed, committed, written, upload_path,
      write_file, os_remove; run.
  - done.
  - split; [|done]. apply Forall_app. split; [done|].
    by apply Forall_singleton.
  - split.
    + apply Forall_app. split; [done|]. by apply Forall_singleton.
    + apply Forall_app. split; [done|]. apply Forall_fmap.
      apply Forall_forall. intros chunk _. simpl. by eexists.
Qed.

Lemma delete_preserves_inv (E : Env) (id : nat) (w : World) :
  stores_inv w → stores_inv (delete_document E id w).2.
Proof.
  intros (Hwf & Hpaths & Htags).
  split; [by apply delete_preserves_wf|]. split.
  - rewrite Forall_forall in *. intros d Hd. apply Hpaths.
    revert Hd. generalize d.
    destruct (delete_world_cases E id w) as [->|(doc & _ & _ & Hcase)]; [done|].
    cbv zeta in Hcase. unfold os_remove in Hcase. run.
    destruct Hcase as [[-> _]|[-> _]];
      destruct (bool_decide (is_Some (fs w !! doc_filepath doc))); simpl;
      try done; intros d' Hd'; by apply list_elem_of_filter in Hd' as [_ Hd'].
  - by rewrite delete_vs_rows.
Qed.

Lemma after_call_preserves_inv (w : World) (c : Call) :
  stores_inv w → stores_inv (after_call w c).
Proof.
  intros Hinv. destruct c as [E file| |E id|E req]; simpl.
  - by apply upload_preserves_inv.
  - done.
  - by apply delete_preserves_inv.
  - by rewrite ask_world.
Qed.

(** X10: after any sequence of upload, list, delete and ask requests on
    initially empty stores, whatever their outcomes, filenames and ids are
    unique in the table, every id is below the sequence, every record's path
    is the upload path of its filename, and every indexed chunk is tagged
    with one filename. *)
Theorem requests_keep_invariant (cs : list Call) :
  stores_inv (after_calls empty_world cs) ∧
  unique_filenames (after_calls empty_world cs) ∧
  unique_ids (after_calls empty_world cs).
Proof.
  assert (stores_inv (after_calls empty_world cs)) as Hinv.
  { unfold after_calls.
    assert (stores_inv empty_world) as H0.
    { repeat split; apply NoDup_nil_2 || apply Forall_nil_2. }
    revert H0. generalize empty_world.
    induction cs as [|c cs IH]; intros w Hw; [done|].
    simpl. apply IH. by apply after_call_preserves_inv. }
  split; [done|]. destruct Hinv as ((Hn & Hi & _) & _). done.
Qed.

(** ** Ask *)

(** X11: a question never changes the stores, and every failure on the way
    (vector store, pipeline or search) is answered with the same generic
    server error. *)
Theorem ask_read_only (E : Env) (req : AskRequest) (w : World) :
  (ask E req w).2 = w ∧
  ∀ e, (ask E req w).1 = Raise e →
       e = HTTPException 500 "Failed to process your query.".
Proof.
  split; [apply ask_world|].
  intros e He. destruct (ask E req w) as [r w'] eqn:Hask. simpl in He. subst r.
  by apply ask_raises in Hask as [-> _].
Qed.

(** X12: a question is answered exactly when the vector store is obtained,
    the pipeline returns a result and the standalone search returns; a
    pipeline result without any answer field is enough. *)
Theorem ask_succeeds_iff (E : Env) (req : AskRequest) (w : World) :
  (∃ resp, (ask E req w).1 = Ok resp) ↔
  get_vectorstore_raises E = false ∧
  is_Some (ainvoke E (vs_rows w) (question req)) ∧
  is_Some (asimilarity_search E (vs_rows w) (question req)).
Proof.
  split.
  - intros [resp Hresp].
    destruct (ask E req w) as [r w'] eqn:Hask. simpl in Hresp. subst r.
    apply ask_ok_inv in Hask as (_ & Hvs & res & docs & Hres & Hdocs & _).
    by rewrite Hres, Hdocs.
  - intros (Hvs & [res Hres] & [docs Hdocs]).
    eexists. by rewrite (ask_ok E req w res docs).
Qed.

(** ** Text extraction *)

Lemma str_app_cons (x : ascii) (a b : string) :
  String x a +:+ b = String x (a +:+ b).
Proof. reflexivity. Qed.

Lemma str_app_assoc (a b c : string) : (a +:+ b) +:+ c = a +:+ (b +:+ c).
Proof. induction a as [|x a IH]; [done|]. by rewrite !str_app_cons, IH. Qed.

Lemma str_app_nil_r (a : string) : a +:+ "" = a.
Proof. induction a as [|x a IH]; [done|]. by rewrite str_app_cons, IH. Qed.

Lemma add_page_text_app (text : string) (v : pyval) :
  add_page_text text v = text +:+ pystr_text v.
Proof.
  destruct v as [|[|c s]]; simpl; by rewrite ?str_app_nil_r.
Qed.

Lemma foldl_add_page_text (acc : string) (pages : list pyval) :
  foldl add_page_text acc pages = acc +:+ String.concat "" (pystr_text <$> pages).
Proof.
  revert acc. induction pages as [|v pages IH]; intros acc; simpl.
  - by rewrite str_app_nil_r.
  - rewrite IH, add_page_text_app, str_app_assoc. f_equal.
    destruct pages as [|v' pages]; simpl; [by rewrite str_app_nil_r|done].
Qed.

Lemma foldl_add_page_text_filter (acc : string) (pages : list pyval) :
  foldl add_page_text acc pages
  = foldl add_page_text acc (filter (λ v, truthy v = true) pages).
Proof.
  revert acc. induction pages as [|v pages IH]; intros acc; [done|].
  rewrite filter_cons. simpl. case_decide as Hv.
  - simpl. apply IH.
  - rewrite IH. unfold add_page_text at 2.
    by destruct (truthy v).
Qed.

(** ** Authentication *)

Lemma auth_world (secret : pyval) (request : Request) (w : World) :
  (BearerTokenAuth_call secret request w).2 = w.
Proof.
  unfold BearerTokenAuth_call. run.
  destruct (http_bearer request) as [[c|]|e]; simpl; try done.
  destruct (negb (String.eqb _ _)); simpl; [done|].
  by destruct (negb (bool_decide _)).
Qed.

Lemma auth_ok_iff (secret : pyval) (request : Request) (w : World) (token : string) :
  (BearerTokenAuth_call secret request w).1 = Ok token ↔
  ∃ sch, http_bearer request = Ok (Some (mkCredentials sch token)) ∧
         str_lower sch = "bearer" ∧ secret = PyStr token.
Proof.
  unfold BearerTokenAuth_call. run.
  destruct (http_bearer request) as [[[sch tok]|]|e]; simpl.
  - destruct (String.eqb (str_lower sch) "bearer") eqn:Hs; simpl.
    + apply String.eqb_eq in Hs.
      case_bool_decide as Ht; simpl.
      * split.
        -- intros [= <-]. by exists sch.
        -- by intros (sch' & [= <- <-] & _ & _).
      * split; [done|]. intros (sch' & [= <- <-] & _ & ->). by destruct Ht.
    + apply String.eqb_neq in Hs.
      split; [done|]. by intros (sch' & [= <- <-] & Hl & _).
  - split; [done|]. by intros (sch' & [=] & _).
  - split; [done|]. by intros (sch' & [=] & _).
Qed.

(** X15: the authentication returns a token exactly when the framework
    delivered credentials whose scheme is "bearer" up to the case of ASCII
    letters and whose token equals the configured secret; it never touches
    the stores, and with no secret configured it accepts no request. *)
Theorem auth_accepts_iff (secret : pyval) (request : Request) (w : World) :
  (∀ token,
     (BearerTokenAuth_call secret request w).1 = Ok token ↔
     ∃ sch, http_bearer request = Ok (Some (mkCredentials sch token)) ∧
            str_lower sch = "bearer" ∧ secret = PyStr token) ∧
  (BearerTokenAuth_call secret request w).2 = w ∧
  (secret = PyNone → ∀ token, (BearerTokenAuth_call secret request w).1 ≠ Ok token).
Proof.
  split; [intros token; apply auth_ok_iff|]. split; [apply auth_world|].
  intros -> token Hok. apply auth_ok_iff in Hok as (sch & _ & _ & Habs).
  discriminate Habs.
Qed.

Lemma auth_accepts_iff_witness :
  (BearerTokenAuth_call (PyStr "s3cret")
     (mkRequest (Ok (Some (mkCredentials "BEARER" "s3cret")))) empty_world).1
  = Ok "s3cret" ∧
  (BearerTokenAuth_call PyNone (bearer_request "s3cret") empty_world).1 ≠ Ok "s3cret".
Proof.
  split.
  - apply (auth_accepts_iff (PyStr "s3cret")
             (mkRequest (Ok (Some (mkCredentials "BEARER" "s3cret")))) empty_world).
    exists "BEARER". repeat split.
  - apply (auth_accepts_iff PyNone (bearer_request "s3cret") empty_world).
    reflexivity.
Defined.

(** ** The routes *)

Lemma secured_rejected {A} (secret : pyval) (request : Request)
    (endpoint : string → M A) (w : World) (e : exn) :
  (BearerTokenAuth_call secret request w).1 = Raise e →
  secured secret request endpoint w = (Raise e, w).
Proof.
  intros Hrej. unfold secured. run.
  destruct (BearerTokenAuth_call secret request w) as [r w'] eqn:Hauth.
  pose proof (auth_world secret request w) as Hw. rewrite Hauth in Hw.
  simpl in *. by subst.
Qed.

Lemma secured_accepted {A} (secret : pyval) (request : Request)
    (endpoint : string → M A) (w : World) (token : string) :
  (BearerTokenAuth_call secret request w).1 = Ok token →
  secured secret request endpoint w = endpoint token w.
Proof.
  intros Hacc. unfold secured. run.
  destruct (BearerTokenAuth_call secret request w) as [r w'] eqn:Hauth.
  pose proof (auth_world secret request w) as Hw. rewrite Hauth in Hw.
  simpl in *. by subst.
Qed.

(** ** Settings and start-up *)

Lemma truthy_getenv (environ : gmap string string) (k : string) :
  truthy (os_getenv environ k) = true ↔
  ∃ v, environ !! k = Some v ∧ v ≠ "".
Proof.
  unfold os_getenv. destruct (environ !! k) as [v|]; simpl.
  - rewrite negb_true_iff, String.eqb_neq. split; [by eauto|].
    by intros (v' & [= <-] & Hv).
  - split; [done|]. by intros (v & [=] & _).
Qed.

Lemma import_app_secret (engine_ok : pyval → bool) (environ : gmap string string)
    (st : Settings) :
  import_app engine_ok environ = inr st →
  SECRET_TOKEN st = os_getenv environ "SECRET_TOKEN".
Proof.
  unfold import_app.
  destruct (negb (truthy (os_getenv environ "DATABASE_URL"))); [done|].
  destruct (negb (engine_ok (os_getenv environ "DATABASE_URL"))); [done|].
  destruct (negb (truthy (os_getenv environ "OPENAI_API_KEY"))); [done|].
  by intros [= <-].
Qed.

(** X19: without SECRET_TOKEN in the environment the application still
    imports, and then no request is ever authenticated: every route answers
    every request with a rejection and leaves the stores untouched. *)
Theorem unset_secret_locks_routes (engine_ok : pyval → bool)
    (environ : gmap string string) (st : Settings)
    (E : Env) (request : Request) (w : World)
    (file : UploadFile) (id : nat) (req : AskRequest) :
  import_app engine_ok environ = inr st →
  environ !! "SECRET_TOKEN" = None →
  ∃ e,
    GET_secure_endpoint (SECRET_TOKEN st) request w = (Raise e, w) ∧
    POST_upload E (SECRET_TOKEN st) request file w = (Raise e, w) ∧
    GET_documents (SECRET_TOKEN st) request w = (Raise e, w) ∧
    DELETE_documents E (SECRET_TOKEN st) request id w = (Raise e, w) ∧
    POST_ask E (SECRET_TOKEN st) request req w = (Raise e, w).
Proof.
  intros Himp Hnone.
  assert (SECRET_TOKEN st = PyNone) as ->.
  { rewrite (import_app_secret _ _ _ Himp). unfold os_getenv. by rewrite Hnone. }
  destruct (BearerTokenAuth_call PyNone request w).1 as [token|e] eqn:Hauth.
  { apply auth_ok_iff in Hauth as (sch & _ & _ & Habs). discriminate Habs. }
  exists e.
  unfold GET_secure_endpoint, POST_upload, GET_documents, DELETE_documents,
    POST_ask. by rewrite !(secured_rejected _ _ _ _ e).
Qed.

Lemma unset_secret_locks_routes_witness :
  ∃ e, POST_ask nominal_env PyNone (bearer_request "") (mkAskRequest "q") world_with_doc1
       = (Raise e, world_with_doc1).
Proof.
  destruct (unset_secret_locks_routes (λ _, true)
              {[ "DATABASE_URL" := "postgresql+asyncpg://db"; "OPENAI_API_KEY" := "sk-test" ]}
              (mkSettings (PyStr "postgresql+asyncpg://db") (PyStr "sk-test") PyNone)
              nominal_env (bearer_request "") world_with_doc1 doc1 1 (mkAskRequest "q"))
    as (e & _ & _ & _ & _ & Hask); [reflexivity | reflexivity |].
  exists e. exact Hask.
Defined.

(** ** Start-up *)

Lemma str_prefix_iff (p s : string) :
  String.prefix p s = true ↔ ∃ t, s = p +:+ t.
Proof.
  revert p. induction s as [|b s IH]; intros [|a p]; simpl.
  - split; [by exists "" | done].
  - split; [done|]. by intros (t & [=]).
  - split; [by exists (String b s) | done].
  - destruct (ascii_dec a b) as [->|Hne].
    + rewrite IH. split.
      * intros (t & ->). by exists t.
      * intros (t & Ht). rewrite str_app_cons in Ht.
        injection Ht as ->. by exists t.
    + split; [done|]. intros (t & Ht). rewrite str_app_cons in Ht.
      injection Ht as Hab _. by destruct Hne.
Qed.

Lemma str_contains_iff (needle hay : string) :
  str_contains needle hay = true ↔ ∃ pre post, hay = pre +:+ needle +:+ post.
Proof.
  induction hay as [|c hay IH]; cbn [str_contains].
  - rewrite orb_false_r, str_prefix_iff. split.
    + intros (t & Ht). by exists "", t.
    + intros ([|a pre] & post & Hh); [by exists post|].
      rewrite str_app_cons in Hh. discriminate Hh.
  - rewrite orb_true_iff, str_prefix_iff, IH. split.
    + intros [(t & Ht)|(pre & post & ->)].
      * by exists "", t.
      * by exists (String c pre), post.
    + intros ([|a pre] & post & Hh).
      * left. by exists post.
      * right. rewrite str_app_cons in Hh. injection Hh as -> ->.
        by exists pre, post.
Qed.

(** X20: start-up succeeds exactly when the creation of the tables returns
    and the initialisation of the vector table either returns or raises an
    error whose text contains the "already exists" message of that table,
    anywhere in it; any other error of the initialisation, and any error of
    the table creation, is raised again. *)
Theorem lifespan_startup_succeeds_iff (create_all ainit : option RaisedError) :
  (lifespan_startup create_all ainit = Ok () ↔
   create_all = None ∧
   (ainit = None ∨
    ∃ e pre post, ainit = Some e ∧ err_str e = pre +:+ already_exists +:+ post)) ∧
  (∀ e, create_all = Some e →
        lifespan_startup create_all ainit = Raise (Exception (err_class e))) ∧
  (∀ e, create_all = None → ainit = Some e →
        str_contains already_exists (err_str e) = false →
        lifespan_startup create_all ainit = Raise (Exception (err_class e))).
Proof.
  unfold lifespan_startup. split; [|split].
  - destruct create_all as [e0|]; [split; [done | by intros [? _]]|].
    destruct ainit as [e|]; [|split; [by auto | done]].
    destruct (str_contains already_exists (err_str e)) eqn:Hc; simpl.
    + split; [|done]. intros _. split; [done|]. right.
      apply str_contains_iff in Hc as (pre & post & Hs). by exists e, pre, post.
    + split; [done|]. intros [_ [Habs|(e' & pre & post & [= <-] & Hs)]]; [done|].
      assert (str_contains already_exists (err_str e) = true) as Ht
        by (apply str_contains_iff; eauto).
      by rewrite Hc in Ht.
  - by intros e ->.
  - intros e -> -> Hc. by rewrite Hc.
Qed.

Lemma lifespan_startup_succeeds_iff_witness :
  lifespan_startup None
    (Some (mkRaisedError "ProgrammingError" "permission denied for schema public"))
  = Raise (Exception "ProgrammingError") ∧
  lifespan_startup None
    (Some (mkRaisedError "ProgrammingError" ("(DuplicateTable) " +:+ already_exists)))
  = Ok ().
Proof.
  split.
  - destruct (lifespan_startup_succeeds_iff None
                (Some (mkRaisedError "ProgrammingError" "permission denied for schema public")))
      as (_ & _ & H).
    apply (H (mkRaisedError "ProgrammingError" "permission denied for schema public"));
      reflexivity.
  - apply (lifespan_startup_succeeds_iff None
             (Some (mkRaisedError "ProgrammingError" ("(DuplicateTable) " +:+ already_exists)))).
    split; [reflexivity|]. right.
    exists (mkRaisedError "ProgrammingError" ("(DuplicateTable) " +:+ already_exists)),
      "(DuplicateTable) ", "".
    split; reflexivity.
Defined.

(** ** The OpenAPI schema *)

Lemma for_values_lookup (f : json → option json) (d d' : gmap string json) (k : string) :
  for_values f d = Some d' →
  match d !! k with
  | None => d' !! k = None
  | Some v => ∃ v', f v = Some v' ∧ d' !! k = Some v'
  end.
Proof.
  unfold for_values. case_decide as Hall; [|done]. intros [= <-].
  rewrite lookup_omap. destruct (d !! k) as [v|] eqn:Hk; simpl; [|done].
  destruct (Hall k v Hk) as [v' Hv]. by exists v'.
Qed.

Lemma add_security_spec (op op' : json) :
  add_security op = Some op' →
  operation_security op' = operation_security op ++ [bearer_requirement] ∧
  ∀ k, k ≠ "security" → json_get k op' = json_get k op.
Proof.
  unfold add_security, operation_security.
  destruct op as [| |l|d]; try done. simpl.
  destruct (d !! "security") as [[| |l|sec]|] eqn:Hsec; try done;
    intros [= <-]; simpl; rewrite lookup_insert_eq;
    (split; [done|]); intros k Hk; by rewrite lookup_insert_ne.
Qed.

(** What a call that builds the schema returns. *)
Lemma custom_openapi_built (cached : option json) (generated schema : json)
    (cache' : option json) :
  json_truthy cached = false →
  custom_openapi cached generated = (Ok schema, cache') →
  ∃ top comps paths paths',
    generated = JDict top ∧
    top !! "components" = Some (JDict comps) ∧
    top !! "paths" = Some (JDict paths) ∧
    for_values secure_path paths = Some paths' ∧
    schema = JDict (<["paths" := JDict paths']>
                      (<["components" := JDict (<["securitySchemes" := bearer_scheme]> comps)]> top)) ∧
    cache' = Some schema.
Proof.
  intros Hc. unfold custom_openapi. rewrite Hc.
  destruct generated as [| |l|top]; try done.
  destruct (top !! "components") as [[| |l|comps]|] eqn:Hcomp; try done.
  rewrite lookup_insert_ne by done.
  destruct (top !! "paths") as [[| |l|paths]|] eqn:Hpaths; try done.
  destruct (for_values secure_path paths) as [paths'|] eqn:Hfor; [|done].
  intros [= <- <-]. by exists top, comps, paths, paths'.
Qed.

(** X21: when no schema is cached, a successful call caches what it
    returns; the result has the BearerAuth scheme as its only security
    scheme, has the same paths and methods as the generated schema, and
    each operation has its security requirements followed by the
    BearerAuth requirement, all its other keys being as generated. *)
Theorem custom_openapi_secures_operations (cached : option json)
    (generated schema : json) (cache' : option json) :
  json_truthy cached = false →
  custom_openapi cached generated = (Ok schema, cache') →
  cache' = Some schema ∧
  json_get "components" schema ≫= json_get "securitySchemes" = Some bearer_scheme ∧
  (∀ k, k ≠ "components" → k ≠ "paths" → json_get k schema = json_get k generated) ∧
  (∀ path method,
     match schema_operation generated path method with
     | None => schema_operation schema path method = None
     | Some op =>
         ∃ op', schema_operation schema path method = Some op' ∧
                operation_security op' = operation_security op ++ [bearer_requirement] ∧
                ∀ k, k ≠ "security" → json_get k op' = json_get k op
     end).
Proof.
  intros Hc Hcall.
  apply custom_openapi_built in Hcall
    as (top & comps & paths & paths' & -> & Hcomp & Hpaths & Hfor & -> & ->);
    [|done].
  split; [done|]. split; [|split].
  - simpl. rewrite lookup_insert_ne, lookup_insert_eq by done. simpl.
    apply lookup_insert_eq.
  - intros k Hk1 Hk2. simpl. by rewrite !lookup_insert_ne.
  - intros path method. unfold schema_operation. simpl.
    rewrite lookup_insert_eq, Hpaths. simpl.
    pose proof (for_values_lookup _ _ _ path Hfor) as Hpath.
    destruct (paths !! path) as [item|] eqn:Hitem; simpl.
    + destruct Hpath as (item' & Hsec & ->). simpl.
      unfold secure_path in Hsec. destruct item as [| |l|ops]; try done.
      destruct (for_values add_security ops) as [ops'|] eqn:Hops; [|done].
      injection Hsec as <-. simpl.
      pose proof (for_values_lookup _ _ _ method Hops) as Hop.
      destruct (ops !! method) as [op|] eqn:Hm.
      * destruct Hop as (op' & Hadd & ->). exists op'.
        split; [done|]. by apply add_security_spec.
      * by rewrite Hop.
    + by rewrite Hpath.
Qed.

Lemma custom_openapi_secures_operations_witness :
  ∃ schema op,
    custom_openapi None generated_schema = (Ok schema, Some schema) ∧
    schema_operation schema "/ask" "post" = Some op ∧
    operation_security op
    = [JDict {[ "BearerTokenAuth" := JList [] ]}; bearer_requirement].
Proof.
  destruct (custom_openapi None generated_schema) as [[schema|e] cache'] eqn:Hcall;
    [|vm_compute in Hcall; discriminate Hcall].
  destruct (custom_openapi_secures_operations None generated_schema schema cache')
    as (-> & _ & _ & Hops); [reflexivity | exact Hcall |].
  specialize (Hops "/ask" "post").
  change (schema_operation generated_schema "/ask" "post")
    with (Some (JDict {[ "summary" := JStr "Ask";
               "security" := JList [JDict {[ "BearerTokenAuth" := JList [] ]}] ]}))
    in Hops.
  destruct Hops as (op & Hop & Hsec & _).
  exists schema, op. split; [reflexivity|]. split; [exact Hop|exact Hsec].
Defined.

(** X22: once a call has built and cached the schema, every later call
    returns that same schema and keeps the cache, whatever [get_openapi]
    would generate then: the requirement is not added a second time. *)
Theorem custom_openapi_idempotent (cached : option json)
    (generated generated' schema : json) (cache' : option json) :
  json_truthy cached = false →
  custom_openapi cached generated = (Ok schema, cache') →
  custom_openapi cache' generated' = (Ok schema, cache').
Proof.
  intros Hc Hcall.
  apply custom_openapi_built in Hcall
    as (top & comps & paths & paths' & _ & _ & _ & _ & -> & ->); [|done].
  unfold custom_openapi.
  assert (json_truthy (Some (JDict (<["paths" := JDict paths']>
            (<["components" := JDict (<["securitySchemes" := bearer_scheme]> comps)]> top))))
          = true) as ->; [|done].
  simpl. rewrite negb_true_iff, bool_decide_eq_false.
  apply insert_non_empty.
Qed.

Lemma custom_openapi_idempotent_witness :
  ∃ schema,
    custom_openapi None generated_schema = (Ok schema, Some schema) ∧
    custom_openapi (Some schema) schema = (Ok schema, Some schema).
Proof.
  destruct (custom_openapi None generated_schema) as [[schema|e] cache'] eqn:Hcall;
    [|vm_compute in Hcall; discriminate Hcall].
  pose proof (custom_openapi_idempotent None generated_schema schema schema cache'
                eq_refl Hcall) as Hagain.
  destruct (custom_openapi_built None generated_schema schema cache' eq_refl Hcall)
    as (_ & _ & _ & _ & _ & _ & _ & _ & _ & ->).
  exists schema. split; [reflexivity | exact Hagain].
Defined.

(** X23: a call that raises leaves the cached schema as it was.  With no
    schema cached, a generated schema without the components section, or
    with it but without paths, raises KeyError. *)
Theorem custom_openapi_failure (cached : option json) (generated : json) :
  (∀ e, (custom_openapi cached generated).1 = Raise e →
        (custom_openapi cached generated).2 = cached) ∧
  (∀ top, json_truthy cached = false → generated = JDict top →
     top !! "components" = None ∨
     ((∃ comps, top !! "components" = Some (JDict comps)) ∧ top !! "paths" = None) →
     custom_openapi cached generated = (Raise (Exception "KeyError"), cached)).
Proof.
  split.
  - intros e. unfold custom_openapi.
    destruct (json_truthy cached); [done|].
    destruct generated as [| |l|top]; try done.
    destruct (top !! "components") as [[| |l|comps]|]; try done.
    rewrite lookup_insert_ne by done.
    destruct (top !! "paths") as [[| |l|paths]|]; try done.
    by destruct (for_values secure_path paths).
  - intros top Hc -> [Hnone|[[comps Hcomp] Hpaths]]; unfold custom_openapi;
      rewrite Hc.
    + by rewrite Hnone.
    + rewrite Hcomp. rewrite lookup_insert_ne by done. by rewrite Hpaths.
Qed.

Lemma custom_openapi_failure_witness :
  custom_openapi None (JDict {[ "openapi" := JStr "3.1.0"; "paths" := JDict ∅ ]})
  = (Raise (Exception "KeyError"), None).
Proof.
  apply (custom_openapi_failure None
           (JDict {[ "openapi" := JStr "3.1.0"; "paths" := JDict ∅ ]}))
    with (top := {[ "openapi" := JStr "3.1.0"; "paths" := JDict ∅ ]});
    [reflexivity | reflexivity | left; reflexivity].
Defined.

(** ** More on sequences of requests *)

Lemma after_calls_inv (w : World) (cs : list Call) :
  stores_inv w → stores_inv (after_calls w cs).
Proof.
  unfold after_calls. revert w.
  induction cs as [|c cs IH]; intros w Hw; [done|].
  simpl. apply IH. by apply after_call_preserves_inv.
Qed.

(** X24: after any sequence of requests on initially empty stores, the
    listing returns one pair per record, without changing the stores, and
    no id and no filename occurs twice in it. *)
Theorem listing_has_no_duplicates (cs : list Call) :
  let w := after_calls empty_world cs in
  ∃ listing,
    list_documents w = (Ok listing, w) ∧
    length listing = length (db_rows w) ∧
    NoDup listing.*1 ∧ NoDup listing.*2.
Proof.
  intros w.
  assert (stores_inv w) as ((Hnames & Hids & _) & _).
  { apply after_calls_inv. repeat split; apply NoDup_nil_2 || apply Forall_nil_2. }
  eexists. split; [reflexivity|].
  rewrite length_fmap, <- !list_fmap_compose. by repeat split.
Qed.

(** X25: when the commit of the new record raises, the upload answers with
    the generic server error and nothing of it remains: the table, the
    listing and the id sequence are as before, the vector table is
    untouched and the written file is removed. *)
Theorem upload_commit_failure (E : Env) (file : UploadFile) (w : World)
    (pages : list pyval) (chunks : list string) :
  file_filename file ∉ filenames w → file_contents file ≠ [] →
  PdfReader E (file_contents file) = Some pages →
  split_text E 500 50 (foldl add_page_text "" pages) = Some chunks →
  commit_raises E = true →
  let path := path_join UPLOAD_DIR (file_filename file) in
  let out := upload_document E file w in
  (out.1) = Raise (HTTPException 500 "Internal Server Error") ∧
  db_rows (out.2) = db_rows w ∧
  db_next_id (out.2) = db_next_id w ∧
  (list_documents (out.2)).1 = (list_documents w).1 ∧
  vs_rows (out.2) = vs_rows w ∧
  fs (out.2) = delete path (fs w) ∧
  effects (out.2) = effects w ++ [FileWritten path; FileRemoved path].
Proof.
  intros Hfresh Hne Hp Hs Hc path out. subst out.
  rewrite upload_fresh by done. rewrite Hp, Hs, Hc.
  unfold upload_failed, written, upload_path, write_file, os_remove. run.
  fold path. repeat split.
  - apply delete_insert_eq.
  - by rewrite <- (assoc_L (++)).
Qed.

Lemma upload_commit_failure_witness :
  let out := upload_document (example_env true true false false true false)
               doc1 empty_world in
  (out.1) = Raise (HTTPException 500 "Internal Server Error") ∧
  db_rows (out.2) = [] ∧ fs (out.2) = ∅.
Proof.
  destruct (upload_commit_failure (example_env true true false false true false)
              doc1 empty_world
              [PyStr "Hello "; PyNone; PyStr ""; PyStr "world"] ["Hello world"])
    as (H1 & H2 & _ & _ & _ & H3 & _);
    [apply not_elem_of_nil | discriminate | reflexivity..|].
  split; [exact H1|]. split; [exact H2|]. rewrite H3. reflexivity.
Defined.

Lemma collect_sources_tagged (filename : string) (docs : list Document) :
  Forall (λ d, metadata d = Some {[ "filename" := filename ]}) docs →
  collect_sources docs = replicate (length docs) filename.
Proof.
  rewrite collect_sources_spec.
  induction 1 as [|d docs Hd _ IH]; [done|].
  rewrite fmap_cons, IH. simpl. f_equal.
  unfold filename_or_empty. rewrite Hd. simpl. by rewrite lookup_singleton_eq.
Qed.

(** X26: after a complete upload and the delete of its record, the
    document is no longer listed, yet a question whose search retrieves
    chunks of that document still names its filename as the source of each
    of them. *)
Theorem deleted_document_still_cited (E E' E'' : Env) (file : UploadFile) (w : World)
    (pages : list pyval) (chunks : list string)
    (req : AskRequest) (res : gmap string pyval) (docs : list Document) :
  db_wf w →
  file_filename file ∉ filenames w → file_contents file ≠ [] →
  PdfReader E (file_contents file) = Some pages →
  split_text E 500 50 (foldl add_page_text "" pages) = Some chunks →
  commit_raises E = false → refresh_raises E = false →
  get_vectorstore_raises E = false →
  has_aadd_documents E = true → aadd_documents_raises E = false →
  commit_raises E' = false →
  let w2 := (delete_document E' (db_next_id w) (upload_document E file w).2).2 in
  get_vectorstore_raises E'' = false →
  ainvoke E'' (vs_rows w2) (question req) = Some res →
  asimilarity_search E'' (vs_rows w2) (question req) = Some docs →
  docs ⊆ make_doc (file_filename file) <$> chunks →
  (file_filename file ∉ filenames w2) ∧
  (make_doc (file_filename file) <$> chunks) ⊆ vs_rows w2 ∧
  ∃ resp, ask E'' req w2 = (Ok resp, w2) ∧
          sources resp = replicate (length docs) (file_filename file).
Proof.
  intros Hwf Hfresh Hne Hp Hs Hc Hr Hv Hh Ha Hc' w2.
  assert (w2 = mkWorld (db_rows w) (S (db_next_id w))
                 (delete (path_join UPLOAD_DIR (file_filename file)) (fs w))
                 (vs_rows w ++ (make_doc (file_filename file) <$> chunks))
                 (effects w ++ [FileWritten (path_join UPLOAD_DIR (file_filename file));
                                RowInserted (db_next_id w);
                                ChunksIndexed (file_filename file) (length chunks);
                                FileRemoved (path_join UPLOAD_DIR (file_filename file));
                                RowDeleted (db_next_id w)])) as Hw2.
  { subst w2. rewrite (upload_ok E file w pages chunks) by done. simpl.
    by rewrite upload_delete_world. }
  clearbody w2. subst w2. simpl.
  intros Hv'' Hres Hdocs Hsub.
  split; [done|]. split.
  { intros d Hd. apply elem_of_app. by right. }
  eexists. split; [by apply ask_ok|]. simpl.
  apply collect_sources_tagged. apply Forall_forall. intros d Hd.
  apply Hsub in Hd. apply list_elem_of_fmap in Hd as (c & -> & _). done.
Qed.

Lemma deleted_document_still_cited_witness :
  let w2 := (delete_document nominal_env 1 world_with_doc1).2 in
  filenames w2 = [] ∧
  ∃ resp, ask nominal_env (mkAskRequest "q") w2 = (Ok resp, w2) ∧
          sources resp = ["doc1.pdf"].
Proof.
  split; [reflexivity|].
  destruct (deleted_document_still_cited nominal_env nominal_env nominal_env
              doc1 empty_world
              [PyStr "Hello "; PyNone; PyStr ""; PyStr "world"] ["Hello world"]
              (mkAskRequest "q")
              {[ "query" := PyStr "q"; "result" := PyStr "42" ]}
              [make_doc "doc1.pdf" "Hello world"])
    as (_ & _ & resp & Hask & Hsrc);
    [| apply not_elem_of_nil | discriminate | reflexivity.. | |].
  - repeat split; apply NoDup_nil_2 || apply Forall_nil_2.
  - intros d Hd. exact Hd.
  - exists resp. split; [exact Hask | exact Hsrc].
Defined.


(** * The handlers against a refusing database and file system *)

(** ** Upload *)

Section UploadIO.
Variable B : Backend.
Variable E : Env.
Variable file : UploadFile.

(** A refused lookup: nothing else happens. *)
Lemma upload_io_refused (w : World) :
  execute_raises B = true ∨ pg_text (file_filename file) = false →
  upload_document_io B E file w = (Raise (Exception "DBAPIError"), w).
Proof.
  intros Href. unfold upload_document_io, db_execute_select.
  assert (execute_raises B || negb (pg_text (file_filename file)) = true) as ->.
  { destruct Href as [-> | ->]; [done | apply orb_true_r]. }
  reflexivity.
Qed.

(** An accepted lookup and an empty payload or a known filename: the file
    system is not consulted. *)
Lemma upload_io_no_write (w : World) :
  execute_raises B = false → pg_text (file_filename file) = true →
  file_contents file = [] ∨ file_filename file ∈ filenames w →
  upload_document_io B E file w = upload_document E file w.
Proof.
  intros Hex Htext Hcase.
  unfold upload_document_io, upload_document, db_execute_select, db_select_one.
  rewrite Hex, Htext. run.
  destruct (filter _ (db_rows w)) as [|d [|d' rows]] eqn:Hf; simpl; try done.
  destruct Hcase as [-> | Hin]; [done|].
  exfalso. by apply (filter_key_nil_inv doc_filename) in Hf.
Qed.


End UploadIO.

(** C5, as stated, fails: an upload with empty content whose filename holds
    a NUL character is not answered with a client error, because the lookup
    of the filename, which precedes the read of the content, is refused by
    the database. *)
Lemma upload_empty_counterexample :
  file_contents nul_upload = [] ∧
  upload_document_io plain_backend nominal_env nul_upload empty_world
  = (Raise (Exception "DBAPIError"), empty_world) ∧
  ∀ status detail,
    (upload_document_io plain_backend nominal_env nul_upload empty_world).1
    ≠ Raise (HTTPException status detail).
Proof.
  split; [reflexivity|]. split; [reflexivity|].
  intros status detail. discriminate.
Qed.

(** C5, amended: an upload with empty content creates no record and writes
    no file (the stores are unchanged); it is rejected with a client error
    whenever the lookup of the filename is accepted, with the empty-payload
    error when the filename is fresh; when the lookup is refused, the
    database error is raised instead. *)
Theorem upload_io_empty_rejected (B : Backend) (E : Env) (file : UploadFile) (w : World) :
  unique_filenames w → file_contents file = [] →
  let out := upload_document_io B E file w in
  (out.2) = w ∧
  db_rows (out.2) = db_rows w ∧ fs (out.2) = fs w ∧ effects (out.2) = effects w ∧
  (execute_raises B = false → pg_text (file_filename file) = true →
   (∃ detail, (out.1) = Raise (HTTPException 400 detail)) ∧
   (file_filename file ∉ filenames w →
    (out.1) = Raise (HTTPException 400 "Uploaded file is empty"))) ∧
  (execute_raises B = true ∨ pg_text (file_filename file) = false →
   (out.1) = Raise (Exception "DBAPIError")).
Proof.
  intros Hu Hc out. subst out.
  destruct (execute_raises B) eqn:Hex;
    [rewrite upload_io_refused by auto; simpl; repeat split; done || by intros [?|?]|].
  destruct (pg_text (file_filename file)) eqn:Htext;
    [|rewrite upload_io_refused by auto; simpl; repeat split; done || by intros [?|?]].
  rewrite upload_io_no_write by auto.
  destruct (decide (file_filename file ∈ filenames w)) as [Hin|Hnot].
  - apply list_elem_of_fmap in Hin as (d & Hd & Hin).
    rewrite (upload_existing E file w d) by done. simpl.
    repeat split; try done.
    + by eexists.
    + intros Hnot. exfalso. apply Hnot. rewrite Hd. by apply list_elem_of_fmap_2.
    + by intros [?|?].
  - rewrite upload_empty by done. simpl.
    repeat split; try done.
    + by eexists.
    + by intros [?|?].
Qed.

Lemma upload_io_empty_rejected_witness :
  upload_document_io plain_backend nominal_env empty_upload world_with_doc1
  = (Raise (HTTPException 400 "Uploaded file is empty"), world_with_doc1).
Proof.
  destruct (upload_io_empty_rejected plain_backend nominal_env empty_upload
              world_with_doc1)
    as (H2 & _ & _ & _ & H1 & _).
  - exact world_with_doc1_unique.
  - reflexivity.
  - destruct H1 as [_ H1]; [reflexivity | reflexivity |].
    rewrite (surjective_pairing (upload_document_io _ _ _ _)).
    rewrite H2, H1; [done|].
    unfold filenames. rewrite world_with_doc1_rows.
    intros Hin. apply list_elem_of_singleton in Hin. discriminate Hin.
Defined.



(** ** Delete, with the lookup and the file system as they can fail *)

Section DeleteIO.
Variables (B : Backend) (E : Env).




(** The record's path is a directory: [os.path.exists] is true, [os.remove]
    raises, and the handler answers with the generic error, the record
    being kept. *)
Lemma delete_io_directory (w : World) (doc : DBDocument) :
  execute_raises B = false → pg_int4 (Z.of_nat (doc_id doc)) = true →
  unique_ids w → doc ∈ db_rows w → is_dir B (doc_filepath doc) = true →
  delete_document_io B E (Z.of_nat (doc_id doc)) w
  = (Raise (HTTPException 500 "Internal Server Error"), w).
Proof.
  intros Hex Hid Hu Hd Hdir.
  unfold delete_document_io, db_execute_select.
  rewrite Hex, Hid. simpl. run.
  rewrite (db_select_one_present (λ d, Z.of_nat (doc_id d)) _ w doc); try done.
  - unfold os_path_exists_io, os_remove_io. rewrite Hdir. run. reflexivity.
  - rewrite (list_fmap_compose doc_id Z.of_nat). apply NoDup_fmap_2; [|exact Hu].
    intros x y. apply Nat2Z.inj.
Qed.
End DeleteIO.




(** ** The fallback of the answer, case by case *)

(** C9: when the pipeline result binds the primary key to the empty string,
    the answer is not that empty string but the next fallback value: the
    value of the alternate key when that one is a non-empty string, and
    otherwise (alternate key absent, bound to [None] or bound to the empty
    string) the fixed placeholder. *)
Theorem ask_empty_primary_falls_back (E : Env) (req : AskRequest) (w : World)
    (res : gmap string pyval) (docs : list Document) :
  get_vectorstore_raises E = false →
  ainvoke E (vs_rows w) (question req) = Some res →
  asimilarity_search E (vs_rows w) (question req) = Some docs →
  res !! "result" = Some (PyStr "") →
  ∃ resp, ask E req w = (Ok resp, w) ∧
    answer resp ≠ PyStr "" ∧
    (∀ c s, res !! "answer" = Some (PyStr (String c s)) →
            answer resp = PyStr (String c s)) ∧
    (res !! "answer" = None ∨ res !! "answer" = Some PyNone ∨
     res !! "answer" = Some (PyStr "") →
     answer resp = PyStr "No relevant answer found.").
Proof.
  intros Hvs Hres Hdocs Hempty. eexists. split; [by apply ask_ok|]. simpl.
  unfold extract_answer, py_or, dict_get. rewrite Hempty. simpl.
  split; [|split].
  - by destruct (res !! "answer") as [[|[|c s]]|].
  - by intros c s ->.
  - by intros [-> | [-> | ->]].
Qed.

Lemma ask_empty_primary_falls_back_witness :
  (∃ resp,
     ask alternate_result_env (mkAskRequest "q") empty_world = (Ok resp, empty_world) ∧
     answer resp = PyStr "from the alternate field") ∧
  (∃ resp,
     ask empty_result_env (mkAskRequest "q") empty_world = (Ok resp, empty_world) ∧
     answer resp = PyStr "No relevant answer found.").
Proof.
  split.
  - destruct (ask_empty_primary_falls_back alternate_result_env (mkAskRequest "q")
                empty_world alternate_result [])
      as (resp & Hask & _ & Halt & _); [reflexivity..|].
    exists resp. split; [exact Hask|].
    apply (Halt "f"%char "rom the alternate field"). reflexivity.
  - destruct (ask_empty_primary_falls_back empty_result_env (mkAskRequest "q")
                empty_world empty_result [])
      as (resp & Hask & _ & _ & Hplace); [reflexivity..|].
    exists resp. split; [exact Hask|].
    apply Hplace. by left.
Defined.

(** X13: the chunks that an upload builds for a filename are attributed to
    that filename by the source loop of a question, one source per chunk in
    order; documents of which each has no metadata or metadata without the
    filename key (the empty dict included) are each attributed to the empty
    string. *)
Theorem sources_by_filename_key (filename : string) (chunks : list string) :
  collect_sources (make_doc filename <$> chunks)
  = replicate (length chunks) filename ∧
  ∀ docs : list Document,
    (∀ d, d ∈ docs →
       metadata d = None ∨ ∃ md, metadata d = Some md ∧ md !! "filename" = None) →
    collect_sources docs = replicate (length docs) "".
Proof.
  split.
  - rewrite collect_sources_spec.
    induction chunks as [|c chunks IH]; [done|].
    rewrite !fmap_cons, IH.
    assert (filename_or_empty (make_doc filename c) = filename) as ->; [|done].
    unfold filename_or_empty, make_doc. simpl. by rewrite lookup_singleton_eq.
  - intros docs Hdocs. rewrite collect_sources_spec.
    induction docs as [|d docs IH]; [done|].
    rewrite fmap_cons. simpl. f_equal.
    + rewrite <- source_of_spec. unfold source_of.
      destruct (Hdocs d) as [-> | (md & -> & Hmd)]; [apply list_elem_of_here | done |].
      rewrite Hmd. by case_bool_decide.
    + apply IH. intros d' Hd'. apply Hdocs. by apply list_elem_of_further.
Qed.

Lemma sources_by_filename_key_witness :
  collect_sources (make_doc "doc1.pdf" <$> ["Hello "; "world"])
  = ["doc1.pdf"; "doc1.pdf"] ∧
  collect_sources [mkDocument "a" (Some {[ "source" := "doc1.pdf" ]});
                   mkDocument "b" None;
                   mkDocument "c" (Some ∅)]
  = [""; ""; ""].
Proof.
  destruct (sources_by_filename_key "doc1.pdf" ["Hello "; "world"]) as [Hup Hno].
  split; [exact Hup|].
  apply Hno. intros d Hd.
  apply elem_of_cons in Hd as [-> | Hd].
  { right. eexists. split; [reflexivity|]. reflexivity. }
  apply elem_of_cons in Hd as [-> | Hd]; [by left|].
  apply list_elem_of_singleton in Hd as ->.
  right. eexists. split; [reflexivity|]. reflexivity.
Defined.

(** ** Text extraction, directories included *)

(** X14: text extraction never changes the stores.  A path that is neither
    a file nor a directory raises FileNotFoundError.  A directory passes
    the existence test and then fails inside the reader: the wrapped
    extraction error is raised, as for a file that cannot be opened or that
    the reader rejects.  Otherwise the result is the concatenation of the
    page texts in page order, where pages without text ([None] or the empty
    string) contribute nothing and can be left out. *)
Theorem extract_text_io_outcomes (B : Backend) (E : Env) (pdf_path : string)
    (w : World) :
  let out := extract_text_from_pdf_io B E pdf_path w in
  (out.2) = w ∧
  (is_dir B pdf_path = false → fs w !! pdf_path = None →
   (out.1) = Raise (Exception "FileNotFoundError")) ∧
  (is_dir B pdf_path = true → (out.1) = Raise (Exception "Exception")) ∧
  (∀ raw, is_dir B pdf_path = false → fs w !! pdf_path = Some raw →
          open_raises B pdf_path = true ∨ PdfReader E raw = None →
          (out.1) = Raise (Exception "Exception")) ∧
  (∀ raw pages, is_dir B pdf_path = false → fs w !! pdf_path = Some raw →
     open_raises B pdf_path = false → PdfReader E raw = Some pages →
     (out.1) = Ok (String.concat "" (pystr_text <$> pages)) ∧
     (out.1) = Ok (foldl add_page_text "" (filter (λ v, truthy v = true) pages))).
Proof.
  intros out. subst out.
  unfold extract_text_from_pdf_io, os_path_exists_io, read_pages, os_path_exists.
  destruct (is_dir B pdf_path) eqn:Hdir; simpl.
  { run. repeat split; done. }
  run. destruct (fs w !! pdf_path) as [raw|] eqn:Hfs; simpl.
  - destruct (open_raises B pdf_path) eqn:Hopen; simpl.
    { split; [done|]. split; [done|]. split; [done|]. split; [done|].
      intros raw' pages' _ _ Habs. discriminate Habs. }
    rewrite Hfs. simpl.
    destruct (PdfReader E raw) as [pages|] eqn:Hp; simpl.
    + split; [done|]. split; [done|]. split; [done|]. split.
      * intros raw' _ [= <-] [Habs | Habs]; [done|]. by rewrite Hp in Habs.
      * intros raw' pages' _ [= <-] _. rewrite Hp. intros [= <-]. split.
        -- by rewrite foldl_add_page_text.
        -- by rewrite <- foldl_add_page_text_filter.
    + split; [done|]. split; [done|]. split; [done|]. split; [done|].
      intros raw' pages' _ [= <-] _. by rewrite Hp.
  - split; [done|]. split; [done|]. split; [done|]. split; done.
Qed.

Lemma extract_text_io_outcomes_witness :
  (extract_text_from_pdf_io uploads_backend nominal_env "./uploads/doc1.pdf"
     world_with_doc1).1
  = Ok "Hello world" ∧
  (extract_text_from_pdf_io uploads_backend nominal_env "./uploads/none.pdf"
     world_with_doc1).1
  = Raise (Exception "FileNotFoundError") ∧
  (extract_text_from_pdf_io uploads_backend nominal_env "./uploads"
     world_with_doc1).1
  = Raise (Exception "Exception").
Proof.
  split; [|split].
  - destruct (extract_text_io_outcomes uploads_backend nominal_env
                "./uploads/doc1.pdf" world_with_doc1) as (_ & _ & _ & _ & H).
    apply (H (file_contents doc1) [PyStr "Hello "; PyNone; PyStr ""; PyStr "world"]);
      reflexivity.
  - destruct (extract_text_io_outcomes uploads_backend nominal_env
                "./uploads/none.pdf" world_with_doc1) as (_ & H & _).
    apply H; reflexivity.
  - destruct (extract_text_io_outcomes uploads_backend nominal_env
                "./uploads" world_with_doc1) as (_ & _ & H & _).
    apply H; reflexivity.
Defined.

(** ** Authentication behind [HTTPBearer] with [auto_error] *)

(** X16: [auth_scheme] is built with [auto_error=True], so [HTTPBearer]
    itself rejects a request without credentials or with another scheme and
    delivers only bearer credentials.  For such a request: an exception of
    [HTTPBearer] passes through unchanged; a token that differs from the
    secret gives 401 'Invalid or missing token'; a token equal to the secret
    is returned; and every rejection is one of those two, the stores being
    untouched. *)
Theorem auth_rejections_auto_error (secret : pyval) (request : Request) (w : World) :
  http_bearer request ≠ Ok None →
  (∀ c, http_bearer request = Ok (Some c) → str_lower (scheme c) = "bearer") →
  let out := BearerTokenAuth_call secret request w in
  (∀ e, http_bearer request = Raise e → out = (Raise e, w)) ∧
  (∀ c, http_bearer request = Ok (Some c) → PyStr (credentials c) ≠ secret →
        out = (Raise (HTTPException 401 "Invalid or missing token"), w)) ∧
  (∀ c, http_bearer request = Ok (Some c) → PyStr (credentials c) = secret →
        out = (Ok (credentials c), w)) ∧
  (∀ e, (out.1) = Raise e →
        http_bearer request = Raise e ∨
        e = HTTPException 401 "Invalid or missing token").
Proof.
  intros Hsome Hbearer out. subst out. unfold BearerTokenAuth_call. run.
  destruct (http_bearer request) as [[c|]|e0] eqn:Hreq; simpl; [|done|].
  - rewrite (Hbearer c eq_refl). simpl.
    split; [done|]. split; [|split].
    + intros c' [= <-] Ht. by rewrite bool_decide_eq_false_2.
    + intros c' [= <-] Ht. by rewrite bool_decide_eq_true_2.
    + intros e. case_bool_decide; simpl; [done|]. intros [= <-]. by right.
  - split; [by intros e [= <-]|]. split; [done|]. split; [done|].
    intros e [= <-]. by left.
Qed.

Lemma auth_rejections_auto_error_witness :
  BearerTokenAuth_call (PyStr "s3cret") (bearer_request "guess") empty_world
  = (Raise (HTTPException 401 "Invalid or missing token"), empty_world) ∧
  BearerTokenAuth_call (PyStr "s3cret")
    (mkRequest (Raise (HTTPException 403 "Not authenticated"))) empty_world
  = (Raise (HTTPException 403 "Not authenticated"), empty_world).
Proof.
  split.
  - destruct (auth_rejections_auto_error (PyStr "s3cret") (bearer_request "guess")
                empty_world) as (_ & H & _).
    + discriminate.
    + by intros c [= <-].
    + apply (H (mkCredentials "Bearer" "guess")); [reflexivity | discriminate].
  - destruct (auth_rejections_auto_error (PyStr "s3cret")
                (mkRequest (Raise (HTTPException 403 "Not authenticated")))
                empty_world) as (H & _).
    + discriminate.
    + intros c Hc. discriminate Hc.
    + by apply H.
Defined.

(** ** Import of the application, every step *)

(** X18: importing the application returns exactly when DATABASE_URL and
    OPENAI_API_KEY are set to non-empty values, the engine accepts the URL,
    the engine is wrapped for the vector store and the upload directory is
    created or found; SECRET_TOKEN is not required and is taken as it is,
    set or not.  A missing or empty DATABASE_URL is reported by
    [app/db.py], whatever the API key and the other steps; a wrapped engine
    or an upload directory that cannot be made fails the import although
    both variables are set. *)
Theorem import_main_succeeds_iff (I : ImportEnv) (environ : gmap string string) :
  (∀ st, import_main I environ = inr st ↔
     ∃ url key,
       environ !! "DATABASE_URL" = Some url ∧ url ≠ "" ∧
       environ !! "OPENAI_API_KEY" = Some key ∧ key ≠ "" ∧
       engine_returns I (PyStr url) = true ∧
       from_engine_returns I = true ∧ makedirs_returns I = true ∧
       st = mkSettings (PyStr url) (PyStr key) (os_getenv environ "SECRET_TOKEN")) ∧
  (truthy (os_getenv environ "DATABASE_URL") = false →
   import_main I environ
   = inl (StartRuntimeError "DATABASE_URL is not set in the environment variables.")) ∧
  (from_engine_returns I = false ∨ makedirs_returns I = false →
   ∀ st, import_main I environ ≠ inr st).
Proof.
  assert (∀ st, import_main I environ = inr st ↔
     ∃ url key,
       environ !! "DATABASE_URL" = Some url ∧ url ≠ "" ∧
       environ !! "OPENAI_API_KEY" = Some key ∧ key ≠ "" ∧
       engine_returns I (PyStr url) = true ∧
       from_engine_returns I = true ∧ makedirs_returns I = true ∧
       st = mkSettings (PyStr url) (PyStr key) (os_getenv environ "SECRET_TOKEN"))
    as Hiff.
  { intros st. unfold import_main.
    destruct (truthy (os_getenv environ "DATABASE_URL")) eqn:Hdb; simpl.
    - apply truthy_getenv in Hdb as (url & Hurl & Hne).
      assert (os_getenv environ "DATABASE_URL" = PyStr url) as ->
        by (unfold os_getenv; by rewrite Hurl).
      destruct (engine_returns I (PyStr url)) eqn:Heng; simpl.
      + destruct (truthy (os_getenv environ "OPENAI_API_KEY")) eqn:Hkey; simpl.
        * apply truthy_getenv in Hkey as (key & Hkey & Hkne).
          assert (os_getenv environ "OPENAI_API_KEY" = PyStr key) as ->
            by (unfold os_getenv; by rewrite Hkey).
          destruct (from_engine_returns I) eqn:Hpg; simpl.
          -- destruct (makedirs_returns I) eqn:Hmk; simpl.
             ++ split.
                ** intros [= <-]. exists url, key. by repeat split.
                ** intros (url' & key' & Hu' & _ & Hk' & _ & _ & _ & _ & ->).
                   rewrite Hurl in Hu'. rewrite Hkey in Hk'.
                   by injection Hu' as <-; injection Hk' as <-.
             ++ split; [done|].
                by intros (url' & key' & _ & _ & _ & _ & _ & _ & Habs & _).
          -- split; [done|].
             by intros (url' & key' & _ & _ & _ & _ & _ & Habs & _).
        * split; [done|].
          intros (url' & key' & _ & _ & Hk & Hkne & _).
          assert (truthy (os_getenv environ "OPENAI_API_KEY") = true) as Ht
            by (apply truthy_getenv; eauto).
          by rewrite Hkey in Ht.
      + split; [done|].
        intros (url' & key' & Hu' & _ & _ & _ & Heng' & _).
        rewrite Hurl in Hu'. injection Hu' as <-.
        by rewrite Heng in Heng'.
    - split; [done|].
      intros (url & key & Hurl & Hne & _).
      assert (truthy (os_getenv environ "DATABASE_URL") = true) as Ht
        by (apply truthy_getenv; eauto).
      by rewrite Hdb in Ht. }
  split; [exact Hiff|]. split.
  - intros Hdb. unfold import_main. by rewrite Hdb.
  - intros Hfail st Hst. apply Hiff in Hst
      as (url & key & _ & _ & _ & _ & _ & Hpg & Hmk & _).
    destruct Hfail as [Hf | Hf]; congruence.
Qed.

Lemma import_main_succeeds_iff_witness :
  import_main (mkImportEnv (λ _, true) true true) {[ "OPENAI_API_KEY" := "sk-test" ]}
  = inl (StartRuntimeError "DATABASE_URL is not set in the environment variables.") ∧
  import_main (mkImportEnv (λ _, true) true false)
    {[ "DATABASE_URL" := "postgresql+asyncpg://db/qa"; "OPENAI_API_KEY" := "sk-test" ]}
  ≠ inr (mkSettings (PyStr "postgresql+asyncpg://db/qa") (PyStr "sk-test") PyNone).
Proof.
  split.
  - destruct (import_main_succeeds_iff (mkImportEnv (λ _, true) true true)
                {[ "OPENAI_API_KEY" := "sk-test" ]}) as (_ & H & _).
    apply H. reflexivity.
  - destruct (import_main_succeeds_iff (mkImportEnv (λ _, true) true false)
                {[ "DATABASE_URL" := "postgresql+asyncpg://db/qa";
                   "OPENAI_API_KEY" := "sk-test" ]}) as (_ & _ & H).
    apply H. by right.
Defined.
